(** * MovieExplorer: the MovieContext store

    A shallow embedding of [src/contexts/MovieContext.tsx]: the React
    provider that owns the trending and search result lists, the
    favorites, the shared pagination counters, the active filters and the
    two [localStorage] entries ([favorites] and [lastSearch]).

    Conventions of the embedding:
    - a JavaScript string is its sequence of UTF-16 code units;
    - a JavaScript number used as a page or an identifier is an integer;
    - an [async] operation is run to completion in one step, the remote
      service being an oracle from requests to outcomes; every request
      handed to [api.get] is recorded in an outbox;
    - [localStorage] is a finite map from keys to strings, and its
      operations always succeed;
    - [console.error] has no effect on the store and is left out.

    The second half of the file splits each fetch at its [await], to
    follow calls that overlap, and adds the mount effect and the three
    lookups by identifier. *)

From Stdlib Require Import ZArith NArith String Ascii DecimalString DecimalZ.
From stdpp Require Import gmap list option.

Open Scope Z_scope.

(** ** JavaScript strings *)

Definition code_unit := N.
Definition jsstring := list code_unit.

(** A string literal of the source, as code units. *)
Definition js (s : string) : jsstring :=
  map N_of_ascii (list_ascii_of_string s).

(** ECMAScript [WhiteSpace] and [LineTerminator] code points, the ones
    [String.prototype.trim] strips. All lie in the basic plane. *)
Definition is_whitespace (c : code_unit) : bool :=
  ((c =? 0x09) || (c =? 0x0A) || (c =? 0x0B) || (c =? 0x0C) || (c =? 0x0D)
   || (c =? 0x20) || (c =? 0xA0) || (c =? 0x1680)
   || ((0x2000 <=? c) && (c <=? 0x200A))
   || (c =? 0x2028) || (c =? 0x2029) || (c =? 0x202F) || (c =? 0x205F)
   || (c =? 0x3000) || (c =? 0xFEFF))%N.

Fixpoint trimStart (s : jsstring) : jsstring :=
  match s with
  | c :: s' => if is_whitespace c then trimStart s' else s
  | [] => []
  end.

Definition trimEnd (s : jsstring) : jsstring := rev (trimStart (rev s)).

(** [s.trim()] *)
Definition trim (s : jsstring) : jsstring := trimEnd (trimStart s).

(** Truthiness of a string: [Boolean(s)]. *)
Definition truthy (s : jsstring) : bool :=
  match s with [] => false | _ :: _ => true end.

(** The string is empty or made of whitespace only. *)
Definition isBlank (s : jsstring) : bool := forallb is_whitespace s.


(** ** Data model *)

(** [Movie] is declared in [../types/movie], which the store only reads
    through [m.id] and serialises with [JSON.stringify]; both are taken
    as an interface. *)
Class MovieModel (Movie : Type) := {
  movie_id : Movie → Z;
  JSON_stringify : list Movie → jsstring
}.

Record FilterOptions := {
  genre : jsstring;
  year : jsstring;
  minRating : jsstring
}.

(** [{ genre: '', year: '', minRating: '' }] *)
Definition noFilters : FilterOptions :=
  {| genre := []; year := []; minRating := [] |}.

(** The value of a request parameter. *)
Inductive ParamValue :=
  | PNum (n : Z)
  | PStr (s : jsstring)
  | PBool (b : bool).

(** What is handed to [api.get]: the path and the [params] object. The
    axios instance adds its own [api_key] to every request. *)
Record Request := {
  url : jsstring;
  params : gmap jsstring ParamValue
}.

Section Store.
Context {Movie : Type} `{MovieModel Movie}.

(** [response.data] of a list endpoint; [results] may be missing. *)
Record SearchResults := {
  results : option (list Movie);
  page : Z;
  total_pages : Z
}.

(** How the awaited [api.get] settles: it resolves with the payload, or
    the [try] block is left through [catch]. *)
Inductive Outcome :=
  | Resolved (data : SearchResults)
  | Rejected.

(** The remote service. *)
Definition Service := Request → Outcome.

(** The [useState] cells of the provider. *)
Record Store := mkStore {
  trendingMovies : list Movie;
  searchResults : list Movie;
  favorites : list Movie;
  searchQuery : jsstring;
  isLoading : bool;
  error : option jsstring;
  currentPage : Z;
  totalPages : Z;
  currentFilters : FilterOptions
}.

(** The store together with what it acts on: the durable key-value store
    and the requests sent so far, oldest first. *)
Record World := mkWorld {
  store : Store;
  localStorage : gmap jsstring jsstring;
  outbox : list Request
}.

(** *** State setters *)

Definition setTrendingMovies (v : list Movie) (s : Store) : Store :=
  mkStore v (searchResults s) (favorites s) (searchQuery s) (isLoading s)
          (error s) (currentPage s) (totalPages s) (currentFilters s).

Definition setSearchResults (v : list Movie) (s : Store) : Store :=
  mkStore (trendingMovies s) v (favorites s) (searchQuery s) (isLoading s)
          (error s) (currentPage s) (totalPages s) (currentFilters s).

Definition setFavorites (v : list Movie) (s : Store) : Store :=
  mkStore (trendingMovies s) (searchResults s) v (searchQuery s) (isLoading s)
          (error s) (currentPage s) (totalPages s) (currentFilters s).

Definition setSearchQuery (v : jsstring) (s : Store) : Store :=
  mkStore (trendingMovies s) (searchResults s) (favorites s) v (isLoading s)
          (error s) (currentPage s) (totalPages s) (currentFilters s).

Definition setIsLoading (v : bool) (s : Store) : Store :=
  mkStore (trendingMovies s) (searchResults s) (favorites s) (searchQuery s) v
          (error s) (currentPage s) (totalPages s) (currentFilters s).

Definition setError (v : option jsstring) (s : Store) : Store :=
  mkStore (trendingMovies s) (searchResults s) (favorites s) (searchQuery s)
          (isLoading s) v (currentPage s) (totalPages s) (currentFilters s).

Definition setCurrentPage (v : Z) (s : Store) : Store :=
  mkStore (trendingMovies s) (searchResults s) (favorites s) (searchQuery s)
          (isLoading s) (error s) v (totalPages s) (currentFilters s).

Definition setTotalPages (v : Z) (s : Store) : Store :=
  mkStore (trendingMovies s) (searchResults s) (favorites s) (searchQuery s)
          (isLoading s) (error s) (currentPage s) v (currentFilters s).

Definition setCurrentFilters (v : FilterOptions) (s : Store) : Store :=
  mkStore (trendingMovies s) (searchResults s) (favorites s) (searchQuery s)
          (isLoading s) (error s) (currentPage s) (totalPages s) v.

(** *** Effects *)

(** A state setter applied to the store. *)
Definition modify (f : Store → Store) (w : World) : World :=
  mkWorld (f (store w)) (localStorage w) (outbox w).

(** [localStorage.setItem(k, v)] *)
Definition setItem (k v : jsstring) (w : World) : World :=
  mkWorld (store w) (<[k := v]> (localStorage w)) (outbox w).

(** [localStorage.removeItem(k)] *)
Definition removeItem (k : jsstring) (w : World) : World :=
  mkWorld (store w) (delete k (localStorage w)) (outbox w).

(** The request leaves through [api.get]. *)
Definition send (req : Request) (w : World) : World :=
  mkWorld (store w) (localStorage w) (outbox w ++ [req]).

(** *** Initial state (lines 54-65)

    [saved] is the parsed [favorites] entry of the storage, or the empty
    list when there is none. *)
Definition initialStore (saved : list Movie)
    (storage : gmap jsstring jsstring) : Store :=
  {| trendingMovies := [];
     searchResults := [];
     favorites := saved;
     searchQuery := default [] (storage !! js "lastSearch");
     isLoading := false;
     error := None;
     currentPage := 1;
     totalPages := 1;
     currentFilters := noFilters |}.

Definition initialWorld (saved : list Movie)
    (storage : gmap jsstring jsstring) : World :=
  mkWorld (initialStore saved storage) storage [].

(** *** Requests *)

(** The filter block shared by both fetches (lines 73-77 and 109-113):
    a field is copied into [params] only when it is a non-empty string. *)
Definition applyFilters (filters : option FilterOptions)
    (params : gmap jsstring ParamValue) : gmap jsstring ParamValue :=
  match filters with
  | Some f =>
      let params :=
        if truthy (genre f)
        then <[js "with_genres" := PStr (genre f)]> params else params in
      let params :=
        if truthy (year f)
        then <[js "primary_release_year" := PStr (year f)]> params
        else params in
      if truthy (minRating f)
      then <[js "vote_average_gte" := PStr (minRating f)]> params else params
  | None => params
  end.

(** Lines 72-79. *)
Definition trendingRequest (pg : Z) (filters : option FilterOptions)
  : Request :=
  {| url := js "/trending/movie/day";
     params := applyFilters filters (<[js "page" := PNum pg]> ∅) |}.

(** Lines 104-115. *)
Definition searchRequest (query : jsstring) (pg : Z)
    (filters : option FilterOptions) : Request :=
  {| url := js "/search/movie";
     params :=
       applyFilters filters
         (<[js "include_adult" := PBool false]>
            (<[js "page" := PNum pg]>
               (<[js "query" := PStr query]> ∅))) |}.

Definition trendingFailure : jsstring :=
  js "Failed to fetch trending movies. Please try again later.".

Definition searchFailure : jsstring :=
  js "Failed to find movies. Please try again later.".

(** *** Operations *)

(** [getTrendingMovies(page = 1, filters?)], lines 68-94. *)
Definition getTrendingMovies (net : Service) (pg : Z)
    (filters : option FilterOptions) (w : World) : World :=
  let w := modify (setIsLoading true) w in
  let w := modify (setError None) w in
  let req := trendingRequest pg filters in
  let w := send req w in
  let w :=
    match net req with
    | Resolved data =>
        let movies := default [] (results data) in
        let w :=
          if pg =? 1 then modify (setTrendingMovies movies) w
          else modify (setTrendingMovies (trendingMovies (store w) ++ movies)) w
        in
        let w := modify (setCurrentPage (page data)) w in
        let w := modify (setTotalPages (total_pages data)) w in
        modify (setCurrentFilters (default noFilters filters)) w
    | Rejected => modify (setError (Some trendingFailure)) w
    end in
  modify (setIsLoading false) w.

(** [searchMovies(query, page = 1, filters?)], lines 96-132. *)
Definition searchMovies (net : Service) (query : jsstring) (pg : Z)
    (filters : option FilterOptions) (w : World) : World :=
  if negb (truthy (trim query)) then w
  else
    let w := modify (setIsLoading true) w in
    let w := modify (setError None) w in
    let w := modify (setSearchQuery query) w in
    let req := searchRequest query pg filters in
    let w := send req w in
    let w :=
      match net req with
      | Resolved data =>
          let movies := default [] (results data) in
          let w :=
            if pg =? 1 then modify (setSearchResults movies) w
            else modify (setSearchResults (searchResults (store w) ++ movies)) w
          in
          let w := modify (setCurrentPage (page data)) w in
          let w := modify (setTotalPages (total_pages data)) w in
          let w := modify (setCurrentFilters (default noFilters filters)) w in
          setItem (js "lastSearch") query w
      | Rejected => modify (setError (Some searchFailure)) w
      end in
    modify (setIsLoading false) w.

(** Lines 134-136. *)
Definition loadMoreTrending (net : Service) (w : World) : World :=
  if currentPage (store w) <? totalPages (store w)
  then getTrendingMovies net (currentPage (store w) + 1)
         (Some (currentFilters (store w))) w
  else w.

(** Lines 137-139. *)
Definition loadMoreResults (net : Service) (w : World) : World :=
  if currentPage (store w) <? totalPages (store w)
  then searchMovies net (searchQuery (store w)) (currentPage (store w) + 1)
         (Some (currentFilters (store w))) w
  else w.

(** Lines 141-147. *)
Definition resetSearch (w : World) : World :=
  let w := modify (setSearchResults []) w in
  let w := modify (setSearchQuery []) w in
  let w := modify (setCurrentPage 1) w in
  let w := modify (setCurrentFilters noFilters) w in
  removeItem (js "lastSearch") w.

(** [prev.some(m => m.id === id)] *)
Definition hasId (id : Z) (l : list Movie) : bool :=
  existsb (fun m => movie_id m =? id) l.

(** Lines 149-158. The updater writes the storage itself. *)
Definition addToFavorites (movie : Movie) (w : World) : World :=
  let prev := favorites (store w) in
  if negb (hasId (movie_id movie) prev) then
    let updated := prev ++ [movie] in
    let w := setItem (js "favorites") (JSON_stringify updated) w in
    modify (setFavorites updated) w
  else modify (setFavorites prev) w.

(** Lines 160-166. *)
Definition removeFromFavorites (movieId : Z) (w : World) : World :=
  let prev := favorites (store w) in
  let updated := List.filter (fun m => negb (movie_id m =? movieId)) prev in
  let w := setItem (js "favorites") (JSON_stringify updated) w in
  modify (setFavorites updated) w.

(** Line 168. *)
Definition isFavorite (movieId : Z) (w : World) : bool :=
  hasId movieId (favorites (store w)).

(** *** Predicates used in the statements *)

(** The [favorites] entry of the storage is the encoding of the list held
    in memory. *)
Definition favoritesSynced (w : World) : Prop :=
  localStorage w !! js "favorites"
  = Some (JSON_stringify (favorites (store w))).

(** Every cell of [s'] other than [searchQuery], [isLoading] and [error]
    is as in [s]. *)
Definition sameData (s s' : Store) : Prop :=
  trendingMovies s' = trendingMovies s
  ∧ searchResults s' = searchResults s
  ∧ favorites s' = favorites s
  ∧ currentPage s' = currentPage s
  ∧ totalPages s' = totalPages s
  ∧ currentFilters s' = currentFilters s.

End Store.

Arguments SearchResults Movie : clear implicits.
Arguments Outcome Movie : clear implicits.
Arguments Service Movie : clear implicits.
Arguments Store Movie : clear implicits.
Arguments World Movie : clear implicits.

(** A filter field [v] reaches the request [r] under the key [k] exactly
    when it is not the empty string. *)
Definition forwarded (v : jsstring) (k : jsstring) (r : Request) : Prop :=
  (v = [] → params r !! k = None)
  ∧ (v ≠ [] → params r !! k = Some (PStr v)).

Definition filtersForwarded (f : FilterOptions) (r : Request) : Prop :=
  forwarded (genre f) (js "with_genres") r
  ∧ forwarded (year f) (js "primary_release_year") r
  ∧ forwarded (minRating f) (js "vote_average_gte") r.

(** ** The provider as its clients drive it *)

Section Client.
Context {Movie : Type} `{MovieModel Movie}.

(** *** A fetch in two steps

    An [async] function runs up to its [await] when it is called, and
    resumes when the request settles; other calls can run in between. *)

(** [getTrendingMovies], lines 69-79: up to the [await]. *)
Definition getTrendingMovies_called (pg : Z)
    (filters : option FilterOptions) (w : World Movie) : World Movie :=
  let w := modify (setIsLoading true) w in
  let w := modify (setError None) w in
  send (trendingRequest pg filters) w.

(** [getTrendingMovies], lines 80-93: once the request has settled. *)
Definition getTrendingMovies_settled (pg : Z)
    (filters : option FilterOptions) (o : Outcome Movie) (w : World Movie)
  : World Movie :=
  let w :=
    match o with
    | Resolved data =>
        let movies := default [] (results data) in
        let w :=
          if pg =? 1 then modify (setTrendingMovies movies) w
          else modify (setTrendingMovies (trendingMovies (store w) ++ movies)) w
        in
        let w := modify (setCurrentPage (page data)) w in
        let w := modify (setTotalPages (total_pages data)) w in
        modify (setCurrentFilters (default noFilters filters)) w
    | Rejected => modify (setError (Some trendingFailure)) w
    end in
  modify (setIsLoading false) w.

(** [searchMovies], lines 97-115: up to the [await]. *)
Definition searchMovies_called (query : jsstring) (pg : Z)
    (filters : option FilterOptions) (w : World Movie) : World Movie :=
  if negb (truthy (trim query)) then w
  else
    let w := modify (setIsLoading true) w in
    let w := modify (setError None) w in
    let w := modify (setSearchQuery query) w in
    send (searchRequest query pg filters) w.

(** [searchMovies], lines 116-131: once the request has settled. *)
Definition searchMovies_settled (query : jsstring) (pg : Z)
    (filters : option FilterOptions) (o : Outcome Movie) (w : World Movie)
  : World Movie :=
  let w :=
    match o with
    | Resolved data =>
        let movies := default [] (results data) in
        let w :=
          if pg =? 1 then modify (setSearchResults movies) w
          else modify (setSearchResults (searchResults (store w) ++ movies)) w
        in
        let w := modify (setCurrentPage (page data)) w in
        let w := modify (setTotalPages (total_pages data)) w in
        let w := modify (setCurrentFilters (default noFilters filters)) w in
        setItem (js "lastSearch") query w
    | Rejected => modify (setError (Some searchFailure)) w
    end in
  modify (setIsLoading false) w.

(** [loadMoreTrending], lines 134-136, up to the [await] of the fetch. *)
Definition loadMoreTrending_called (w : World Movie) : World Movie :=
  if currentPage (store w) <? totalPages (store w)
  then getTrendingMovies_called (currentPage (store w) + 1)
         (Some (currentFilters (store w))) w
  else w.

(** The mount effect, lines 200-203, up to the [await]s: both fetches
    are called one after the other and neither is awaited. *)
Definition mounted (w : World Movie) : World Movie :=
  let query := searchQuery (store w) in
  let w := getTrendingMovies_called 1 None w in
  if truthy query then searchMovies_called query 1 None w else w.

(** *** The operations of the context value (lines 206-227) *)

Inductive Action :=
  | GetTrendingMovies (pg : Z) (filters : option FilterOptions)
  | SearchMovies (query : jsstring) (pg : Z) (filters : option FilterOptions)
  | LoadMoreTrending
  | LoadMoreResults
  | ResetSearch
  | AddToFavorites (movie : Movie)
  | RemoveFromFavorites (movieId : Z).

Definition perform (net : Service Movie) (a : Action) (w : World Movie)
  : World Movie :=
  match a with
  | GetTrendingMovies pg filters => getTrendingMovies net pg filters w
  | SearchMovies query pg filters => searchMovies net query pg filters w
  | LoadMoreTrending => loadMoreTrending net w
  | LoadMoreResults => loadMoreResults net w
  | ResetSearch => resetSearch w
  | AddToFavorites movie => addToFavorites movie w
  | RemoveFromFavorites movieId => removeFromFavorites movieId w
  end.

(** A run of the provider: the operations in the order they are called,
    each completing before the next, with the service as it answers at
    that time. *)
Fixpoint performAll (l : list (Service Movie * Action)) (w : World Movie)
  : World Movie :=
  match l with
  | [] => w
  | (net, a) :: l' => performAll l' (perform net a w)
  end.

(** *** Predicates used in the statements *)

(** No two favorites carry the same identifier. *)
Definition uniqueIds (w : World Movie) : Prop :=
  NoDup (map movie_id (favorites (store w))).

(** The stored [lastSearch], when there is one, is not blank. *)
Definition lastSearchVisible (storage : gmap jsstring jsstring) : Prop :=
  ∀ q, storage !! js "lastSearch" = Some q → isBlank q = false.

End Client.

Arguments Action Movie : clear implicits.

(** ** Lookups by identifier (lines 170-198)

    [MovieDetails], [Credits] and [Video] are declared in
    [../types/movie]; the lookups only pass them on. *)

(** An identifier inside a template literal: the decimal digits of the
    integer, after a minus sign when it is negative. This is how
    JavaScript prints an integer below 10^21 in magnitude. *)
Definition numberToString (n : Z) : jsstring :=
  js (NilZero.string_of_int (Z.to_int n)).

(** The characters such a string is made of: the minus sign and the
    digits. *)
Definition numeral (c : code_unit) : bool :=
  ((c =? 45) || (48 <=? c) && (c <=? 57))%N.

(** The three paths; [api.get] is called with no [params]. *)
Definition detailsRequest (movieId : Z) : Request :=
  {| url := js "/movie/" ++ numberToString movieId; params := ∅ |}.

Definition creditsRequest (movieId : Z) : Request :=
  {| url := js "/movie/" ++ numberToString movieId ++ js "/credits";
     params := ∅ |}.

Definition videosRequest (movieId : Z) : Request :=
  {| url := js "/movie/" ++ numberToString movieId ++ js "/videos";
     params := ∅ |}.

(** How an awaited [api.get] settles for a payload of type [A]. *)
Inductive Settled (A : Type) :=
  | Fulfilled (data : A)
  | Failed.

Arguments Fulfilled {A} data.
Arguments Failed {A}.

Section Lookups.
Context {Movie MovieDetails Credits Video : Type}.

(** Lines 170-178: the payload, or [null]. *)
Definition getMovieDetails (net : Request → Settled MovieDetails)
    (movieId : Z) (w : World Movie) : option MovieDetails * World Movie :=
  let req := detailsRequest movieId in
  let w := send req w in
  match net req with
  | Fulfilled data => (Some data, w)
  | Failed => (None, w)
  end.

(** Lines 180-188: the payload, or [null]. *)
Definition getMovieCredits (net : Request → Settled Credits)
    (movieId : Z) (w : World Movie) : option Credits * World Movie :=
  let req := creditsRequest movieId in
  let w := send req w in
  match net req with
  | Fulfilled data => (Some data, w)
  | Failed => (None, w)
  end.

(** Lines 190-198: the [results] of the payload, which may be missing,
    or the empty list. *)
Definition getMovieVideos (net : Request → Settled (option (list Video)))
    (movieId : Z) (w : World Movie) : list Video * World Movie :=
  let req := videosRequest movieId in
  let w := send req w in
  match net req with
  | Fulfilled results => (default [] results, w)
  | Failed => ([], w)
  end.

End Lookups.

(** ** Sample data *)

Module Sample.

Record movie := { id : Z; title : jsstring }.

Definition decimal (n : Z) : jsstring :=
  js (NilZero.string_of_int (Z.to_int n)).

Definition quoted (s : jsstring) : jsstring := [34%N] ++ s ++ [34%N].

Definition stringifyMovie (m : movie) : jsstring :=
  js "{" ++ quoted (js "id") ++ js ":" ++ decimal (id m) ++ js ","
  ++ quoted (js "title") ++ js ":" ++ quoted (title m) ++ js "}".

Fixpoint commaSeparated (l : list jsstring) : jsstring :=
  match l with
  | [] => []
  | [x] => x
  | x :: l' => x ++ js "," ++ commaSeparated l'
  end.

Definition stringify (l : list movie) : jsstring :=
  js "[" ++ commaSeparated (map stringifyMovie l) ++ js "]".

#[global] Instance model : MovieModel movie :=
  {| movie_id := id; JSON_stringify := stringify |}.

Definition alien : movie := {| id := 348; title := js "Alien" |}.
Definition brazil : movie := {| id := 68; title := js "Brazil" |}.
Definition casablanca : movie := {| id := 289; title := js "Casablanca" |}.

(** A service that is down, and one that answers every request alike. *)
Definition offline : Service movie := fun _ => Rejected.

Definition answering (data : SearchResults movie) : Service movie :=
  fun _ => Resolved data.

Definition secondPage : SearchResults movie :=
  {| results := Some [casablanca; alien]; page := 2; total_pages := 3 |}.

Definition drama : FilterOptions :=
  {| genre := js "18"; year := []; minRating := js "7" |}.

(** The first page of trending movies has arrived; nothing is stored. *)
Definition browsing : World movie :=
  mkWorld
    {| trendingMovies := [alien; brazil];
       searchResults := [brazil];
       favorites := [];
       searchQuery := js "bra";
       isLoading := false;
       error := None;
       currentPage := 1;
       totalPages := 3;
       currentFilters := drama |}
    ∅ [].

(** One favorite, written through. *)
Definition withFavorite : World movie := addToFavorites alien browsing.

(** A provider that has just been mounted over an empty storage. *)
Definition fresh : World movie := initialWorld [] ∅.

(** A service that answers with [secondPage]. *)
Definition online : Service movie := answering secondPage.

(** Searches for [alien] on page 1, the service being down or up. *)
Definition searchDown : World movie :=
  searchMovies offline (js "alien") 1 None browsing.

Definition searchUp : World movie :=
  searchMovies online (js "alien") 1 None browsing.

(** The next page of each list, the service being down. *)
Definition trendingDown : World movie :=
  getTrendingMovies offline 2 (Some drama) browsing.

Definition searchDown2 : World movie :=
  searchMovies offline (js "alien") 2 (Some drama) browsing.

(** The first and the last of three pages. *)
Definition firstPage : SearchResults movie :=
  {| results := Some [alien; brazil]; page := 1; total_pages := 3 |}.

Definition lastPage : SearchResults movie :=
  {| results := None; page := 3; total_pages := 3 |}.

(** A storage left by an earlier session. *)
Definition returning : gmap jsstring jsstring :=
  <[js "lastSearch" := js "alien"]> ∅.

(** A provider mounted over an empty storage once the first of three
    trending pages has arrived: no query is active. *)
Definition trendingLoaded : World movie :=
  getTrendingMovies (answering firstPage) 1 None fresh.

(** A session: a search that resolves, a load-more that fails, two
    favorites mutations and a reset. *)
Definition session : list (Service movie * Action movie) :=
  [ (answering firstPage, SearchMovies (js "alien") 1 (Some drama));
    (offline, LoadMoreResults);
    (online, AddToFavorites brazil);
    (online, RemoveFromFavorites 348);
    (online, ResetSearch) ].

(** Services for the lookups: one that is down, one whose videos
    payload has no results. *)
Definition noDetails : Request → Settled jsstring := fun _ => Failed.
Definition noCredits : Request → Settled jsstring := fun _ => Failed.
Definition noVideos : Request → Settled (option (list jsstring)) :=
  fun _ => Fulfilled None.

End Sample.

(** * Properties *)

(** Two string literals differ. *)
Ltac keys_differ :=
  let E := fresh "E" in intros E; vm_compute in E; discriminate E.

(** Lookups in a [params] object built from literal keys. *)
Ltac lookup_params :=
  repeat first
    [ rewrite lookup_insert_eq
    | rewrite lookup_insert_ne by keys_differ
    | rewrite lookup_empty ].

(** ** Strings *)

Lemma trimStart_nil (s : jsstring) :
  trimStart s = [] ↔ isBlank s = true.
Proof.
  unfold isBlank. induction s as [|c s IH]; simpl; [done|].
  destruct (is_whitespace c); simpl; [exact IH|]. split; discriminate.
Qed.

Lemma isBlank_rev (s : jsstring) : isBlank (rev s) = isBlank s.
Proof.
  unfold isBlank. induction s as [|c s IH]; simpl; [done|].
  rewrite forallb_app, IH. simpl. rewrite andb_true_r. apply andb_comm.
Qed.

(** What [trimStart] leaves is empty or starts with a visible character. *)
Lemma trimStart_blank (s : jsstring) :
  isBlank (trimStart s) = true → trimStart s = [].
Proof.
  unfold isBlank. induction s as [|c s IH]; simpl; [done|].
  destruct (is_whitespace c) eqn:Hc; [exact IH|].
  simpl. rewrite Hc. discriminate.
Qed.

(** [!query.trim()] holds exactly for the blank strings. *)
Lemma trim_falsy (s : jsstring) :
  negb (truthy (trim s)) = isBlank s.
Proof.
  destruct (isBlank s) eqn:Hb.
  - apply trimStart_nil in Hb. unfold trim, trimEnd. by rewrite Hb.
  - destruct (trim s) as [|c t] eqn:Ht; [|done]. exfalso.
    unfold trim, trimEnd in Ht.
    assert (Hr : trimStart (rev (trimStart s)) = []).
    { rewrite <- (rev_involutive (trimStart (rev (trimStart s)))).
      by rewrite Ht. }
    apply trimStart_nil in Hr. rewrite isBlank_rev in Hr.
    apply trimStart_blank, trimStart_nil in Hr. congruence.
Qed.

Section Properties.
Context {Movie : Type} `{MovieModel Movie}.
Implicit Types (w : World Movie) (s : Store Movie) (net : Service Movie)
  (pg : Z) (query : jsstring) (filters : option FilterOptions)
  (f : FilterOptions) (movie : Movie) (movieId : Z).

(** ** Bookkeeping *)

Lemma world_eq w w' :
  store w = store w' → localStorage w = localStorage w' →
  outbox w = outbox w' → w = w'.
Proof. destruct w, w'; simpl; congruence. Qed.

Lemma setFavorites_same s : setFavorites (favorites s) s = s.
Proof. by destruct s. Qed.

Lemma modify_setFavorites_same w :
  modify (setFavorites (favorites (store w))) w = w.
Proof. apply world_eq; simpl; auto using setFavorites_same. Qed.

(** The body of [searchMovies] once the guard is passed. *)
Lemma searchMovies_visible net query pg filters w :
  isBlank query = false →
  searchMovies net query pg filters w =
    let w := modify (setSearchQuery query)
               (modify (setError None) (modify (setIsLoading true) w)) in
    let req := searchRequest query pg filters in
    let w := send req w in
    modify (setIsLoading false)
      match net req with
      | Resolved data =>
          let movies := default [] (results data) in
          let w :=
            if pg =? 1 then modify (setSearchResults movies) w
            else modify (setSearchResults (searchResults (store w) ++ movies)) w
          in
          setItem (js "lastSearch") query
            (modify (setCurrentFilters (default noFilters filters))
               (modify (setTotalPages (total_pages data))
                  (modify (setCurrentPage (page data)) w)))
      | Rejected => modify (setError (Some searchFailure)) w
      end.
Proof. intros Hb. unfold searchMovies. by rewrite trim_falsy, Hb. Qed.

(** Each fetch that passes its guard sends exactly one request. *)
Lemma getTrendingMovies_outbox net pg filters w :
  outbox (getTrendingMovies net pg filters w)
  = outbox w ++ [trendingRequest pg filters].
Proof.
  unfold getTrendingMovies.
  destruct (net _); [destruct (pg =? 1)|]; reflexivity.
Qed.

Lemma searchMovies_outbox net query pg filters w :
  isBlank query = false →
  outbox (searchMovies net query pg filters w)
  = outbox w ++ [searchRequest query pg filters].
Proof.
  intros Hb. rewrite searchMovies_visible by done. simpl.
  destruct (net _); [destruct (pg =? 1)|]; reflexivity.
Qed.

Lemma hasId_app id (l l' : list Movie) :
  hasId id (l ++ l') = hasId id l || hasId id l'.
Proof. apply existsb_app. Qed.

Lemma filter_absent id (l : list Movie) :
  hasId id l = false →
  List.filter (fun m => negb (movie_id m =? id)) l = l.
Proof.
  induction l as [|m l IH]; simpl; [done|].
  intros [Hm Hl]%orb_false_iff. rewrite Hm. simpl. by rewrite IH.
Qed.

(** ** Fetching *)

(** C1. A trending fetch, or a search fetch that passes its guard, whose
    request is answered: for page 1 the result list becomes exactly the
    list of the response (the empty list when the response has none); for
    a page above 1 it becomes the prior list followed by the list of the
    response, in order and with nothing removed. *)
Theorem fetch_replaces_or_appends net query pg filters w data :
  (net (trendingRequest pg filters) = Resolved data →
   let w' := getTrendingMovies net pg filters w in
   (pg = 1 → trendingMovies (store w') = default [] (results data))
   ∧ (1 < pg →
      trendingMovies (store w')
      = trendingMovies (store w) ++ default [] (results data)))
  ∧ (isBlank query = false →
     net (searchRequest query pg filters) = Resolved data →
     let w' := searchMovies net query pg filters w in
     (pg = 1 → searchResults (store w') = default [] (results data))
     ∧ (1 < pg →
        searchResults (store w')
        = searchResults (store w) ++ default [] (results data))).
Proof.
  split.
  - intros Hnet. unfold getTrendingMovies. rewrite Hnet. split.
    + intros ->. reflexivity.
    + intros Hpg. replace (pg =? 1) with false by lia. reflexivity.
  - intros Hb Hnet. rewrite searchMovies_visible by done. simpl.
    rewrite Hnet. split.
    + intros ->. reflexivity.
    + intros Hpg. replace (pg =? 1) with false by lia. reflexivity.
Qed.

(** C2, as amended. A trending fetch whose request fails sets the error
    message and clears the loading flag, and every other cell and the
    whole storage are as before. A search fetch that passes its guard and
    whose request fails does the same, except that the active query is
    the requested one. *)
Theorem failed_fetch_frame net query pg filters w :
  (net (trendingRequest pg filters) = Rejected →
   let w' := getTrendingMovies net pg filters w in
   error (store w') = Some trendingFailure
   ∧ isLoading (store w') = false
   ∧ sameData (store w) (store w')
   ∧ searchQuery (store w') = searchQuery (store w)
   ∧ localStorage w' = localStorage w)
  ∧ (isBlank query = false →
     net (searchRequest query pg filters) = Rejected →
     let w' := searchMovies net query pg filters w in
     error (store w') = Some searchFailure
     ∧ isLoading (store w') = false
     ∧ sameData (store w) (store w')
     ∧ searchQuery (store w') = query
     ∧ localStorage w' = localStorage w).
Proof.
  split.
  - intros Hnet. unfold getTrendingMovies. rewrite Hnet.
    unfold sameData. simpl. tauto.
  - intros Hb Hnet. rewrite searchMovies_visible by done. simpl.
    rewrite Hnet. unfold sameData. simpl. tauto.
Qed.

(** C3. A search whose query is empty or made of whitespace only changes
    nothing: the store, the storage and the outbox are as before, so no
    request has been sent. *)
Theorem blank_search_is_noop net query pg filters w :
  isBlank query = true →
  searchMovies net query pg filters w = w.
Proof. intros Hb. unfold searchMovies. by rewrite trim_falsy, Hb. Qed.

(** C10. For a query that is not blank, a search whose request fails
    leaves the storage, and so its [lastSearch] entry, as it was, while
    the active query in memory is already the new one; a search whose
    request is answered stores the query under [lastSearch]. *)
Theorem lastSearch_written_on_success_only net query pg filters w :
  isBlank query = false →
  let w' := searchMovies net query pg filters w in
  (net (searchRequest query pg filters) = Rejected →
   localStorage w' = localStorage w
   ∧ localStorage w' !! js "lastSearch" = localStorage w !! js "lastSearch"
   ∧ searchQuery (store w') = query)
  ∧ (∀ data, net (searchRequest query pg filters) = Resolved data →
     localStorage w' !! js "lastSearch" = Some query).
Proof.
  intros Hb. rewrite searchMovies_visible by done. simpl. split.
  - intros ->. simpl. done.
  - intros data ->. destruct (pg =? 1); simpl; apply lookup_insert_eq.
Qed.

(** ** Request parameters *)

(** The filter block adds the three filter keys as required, whatever
    other keys the object already holds, provided it holds none of the
    three. *)
Lemma applyFilters_forwarded f (u : jsstring)
    (base : gmap jsstring ParamValue) :
  base !! js "with_genres" = None →
  base !! js "primary_release_year" = None →
  base !! js "vote_average_gte" = None →
  filtersForwarded f {| url := u; params := applyFilters (Some f) base |}.
Proof.
  intros Hg Hy Hr. unfold filtersForwarded, forwarded, applyFilters. simpl.
  destruct (genre f) as [|g gs], (year f) as [|y ys],
    (minRating f) as [|r rs]; simpl; lookup_params;
    repeat split; intros; congruence.
Qed.

(** C4. The request sent by a trending fetch, or by a search fetch that
    passes its guard, carries [with_genres], [primary_release_year] and
    [vote_average_gte] exactly for the filter fields that are not the
    empty string, each with the field as its value; an empty field has no
    parameter at all. *)
Theorem filters_to_params net query pg f w :
  (outbox (getTrendingMovies net pg (Some f) w)
   = outbox w ++ [trendingRequest pg (Some f)]
   ∧ filtersForwarded f (trendingRequest pg (Some f)))
  ∧ (isBlank query = false →
     outbox (searchMovies net query pg (Some f) w)
     = outbox w ++ [searchRequest query pg (Some f)]
     ∧ filtersForwarded f (searchRequest query pg (Some f))).
Proof.
  split; [split|intros Hb; split].
  - apply getTrendingMovies_outbox.
  - apply applyFilters_forwarded; by lookup_params.
  - by apply searchMovies_outbox.
  - apply applyFilters_forwarded; by lookup_params.
Qed.

(** ** Pagination *)

(** C5, as amended. When the current page is not below the total,
    [loadMoreTrending] and [loadMoreResults] change nothing and send
    nothing. When it is below, [loadMoreTrending] is the trending fetch of
    the next page under the recorded filters and sends that request;
    [loadMoreResults] is the search fetch of the next page under the
    recorded query and filters: it sends that request when the recorded
    query is not blank, and changes nothing and sends nothing when the
    recorded query is empty or made of whitespace only. *)
Theorem loadMore_guarded net w :
  let cp := currentPage (store w) in
  let cf := currentFilters (store w) in
  let q := searchQuery (store w) in
  (totalPages (store w) ≤ cp →
   loadMoreTrending net w = w ∧ loadMoreResults net w = w)
  ∧ (cp < totalPages (store w) →
     loadMoreTrending net w = getTrendingMovies net (cp + 1) (Some cf) w
     ∧ outbox (loadMoreTrending net w)
       = outbox w ++ [trendingRequest (cp + 1) (Some cf)]
     ∧ loadMoreResults net w = searchMovies net q (cp + 1) (Some cf) w
     ∧ (isBlank q = false →
        outbox (loadMoreResults net w)
        = outbox w ++ [searchRequest q (cp + 1) (Some cf)])
     ∧ (isBlank q = true → loadMoreResults net w = w)).
Proof.
  intros cp cf q. unfold loadMoreTrending, loadMoreResults.
  fold cp cf q. split; intros Hlt.
  - replace (cp <? totalPages (store w)) with false by lia. done.
  - replace (cp <? totalPages (store w)) with true by lia.
    split_and!; auto using getTrendingMovies_outbox, searchMovies_outbox.
    intros Hb. unfold searchMovies. by rewrite trim_falsy, Hb.
Qed.

(** ** Reset *)

(** C6. After [resetSearch], from any state, the search results are
    empty, the active query is the empty string, the current page is 1,
    the three filters are empty strings and the storage has no
    [lastSearch] entry. *)
Theorem resetSearch_clears w :
  let w' := resetSearch w in
  searchResults (store w') = []
  ∧ searchQuery (store w') = []
  ∧ currentPage (store w') = 1
  ∧ currentFilters (store w') = noFilters
  ∧ localStorage w' = delete (js "lastSearch") (localStorage w)
  ∧ localStorage w' !! js "lastSearch" = None.
Proof. simpl. repeat split. apply lookup_delete_eq. Qed.

(** ** Favorites *)

Lemma addToFavorites_present movie w :
  isFavorite (movie_id movie) w = true → addToFavorites movie w = w.
Proof.
  unfold isFavorite, addToFavorites. intros ->. simpl.
  apply modify_setFavorites_same.
Qed.

Lemma addToFavorites_isFavorite movie w :
  isFavorite (movie_id movie) (addToFavorites movie w) = true.
Proof.
  destruct (isFavorite (movie_id movie) w) eqn:Hp.
  - by rewrite addToFavorites_present.
  - unfold isFavorite, addToFavorites in *. rewrite Hp. simpl.
    rewrite hasId_app. simpl. rewrite Z.eqb_refl. apply orb_true_r.
Qed.

(** C7. Adding the same movie twice leaves the store and the storage as
    adding it once does; and adding a movie whose identifier is already
    among the favorites changes nothing. *)
Theorem addToFavorites_idempotent movie w :
  addToFavorites movie (addToFavorites movie w) = addToFavorites movie w
  ∧ (isFavorite (movie_id movie) w = true → addToFavorites movie w = w).
Proof.
  split; [|apply addToFavorites_present].
  apply addToFavorites_present, addToFavorites_isFavorite.
Qed.

(** C8. Removing an identifier that no favorite carries keeps the list in
    memory as it is and still writes: the [favorites] entry of the storage
    is set to the encoding of that same list, so a storage that already
    held this encoding is unchanged, and so is the whole state. *)
Theorem removeFromFavorites_absent movieId w :
  isFavorite movieId w = false →
  let w' := removeFromFavorites movieId w in
  favorites (store w') = favorites (store w)
  ∧ localStorage w'
    = <[js "favorites" := JSON_stringify (favorites (store w))]>
        (localStorage w)
  ∧ (favoritesSynced w → w' = w).
Proof.
  unfold isFavorite, removeFromFavorites. intros Ha. simpl.
  rewrite filter_absent by done. repeat split.
  intros Hs. apply world_eq; simpl.
  - apply setFavorites_same.
  - by apply insert_id.
  - done.
Qed.

(** C9. If the [favorites] entry of the storage is the encoding of the
    favorites in memory, it is so again after [addToFavorites] and after
    [removeFromFavorites]. *)
Theorem favorites_write_through movie movieId w :
  favoritesSynced w →
  favoritesSynced (addToFavorites movie w)
  ∧ favoritesSynced (removeFromFavorites movieId w).
Proof.
  intros Hs. split.
  - unfold addToFavorites. destruct (hasId _ _); simpl.
    + by rewrite modify_setFavorites_same.
    + apply lookup_insert_eq.
  - apply lookup_insert_eq.
Qed.

End Properties.

(** * Further properties of the provider *)

Section Behaviour.
Context {Movie : Type} `{MovieModel Movie}.
Implicit Types (w : World Movie) (s : Store Movie) (net : Service Movie)
  (pg : Z) (query : jsstring) (filters : option FilterOptions)
  (f : FilterOptions) (movie : Movie) (movieId id : Z)
  (l : list Movie) (a : Action Movie).

(** ** Lists of movies and their identifiers *)

Lemma hasId_In id l : hasId id l = true ↔ In id (map movie_id l).
Proof.
  unfold hasId. rewrite existsb_exists, in_map_iff.
  split; intros (m & Hm & Hi); exists m; split; auto; lia.
Qed.

Lemma hasId_filter id id' l :
  hasId id (List.filter (fun m => negb (movie_id m =? id')) l)
  = hasId id l && negb (id =? id').
Proof.
  induction l as [|m l IH]; simpl; [done|].
  destruct (Z.eqb_spec (movie_id m) id') as [E1|E1]; simpl; rewrite IH;
    destruct (Z.eqb_spec (movie_id m) id) as [E2|E2]; simpl;
    destruct (Z.eqb_spec id id') as [E3|E3]; simpl;
    rewrite ?andb_true_r, ?andb_false_r; try reflexivity; lia.
Qed.

Lemma filter_filter_swap id id' l :
  List.filter (fun m => negb (movie_id m =? id))
    (List.filter (fun m => negb (movie_id m =? id')) l)
  = List.filter (fun m => negb (movie_id m =? id'))
      (List.filter (fun m => negb (movie_id m =? id)) l).
Proof.
  induction l as [|m l IH]; simpl; [done|].
  destruct (movie_id m =? id) eqn:E1, (movie_id m =? id') eqn:E2; simpl;
    rewrite ?E1, ?E2; simpl; by rewrite IH.
Qed.

Lemma filter_filter_same id l :
  List.filter (fun m => negb (movie_id m =? id))
    (List.filter (fun m => negb (movie_id m =? id)) l)
  = List.filter (fun m => negb (movie_id m =? id)) l.
Proof.
  induction l as [|m l IH]; simpl; [done|].
  destruct (movie_id m =? id) eqn:E1; simpl; rewrite ?E1; simpl;
    by rewrite IH.
Qed.

Lemma filter_app_last id l movie :
  hasId id l = false →
  List.filter (fun m => negb (movie_id m =? id)) (l ++ [movie])
  = l ++ (if movie_id movie =? id then [] else [movie]).
Proof.
  intros Hl. rewrite List.filter_app, filter_absent by done. simpl.
  by destruct (movie_id movie =? id).
Qed.

Lemma NoDup_ids_filter (p : Movie → bool) l :
  NoDup (map movie_id l) → NoDup (map movie_id (List.filter p l)).
Proof.
  induction l as [|m l IH]; simpl; [done|].
  intros [Hm Hl]%list.NoDup_cons.
  destruct (p m); simpl; [|auto]. apply list.NoDup_cons.
  split; [|auto]. rewrite list_elem_of_In, in_map_iff in *.
  intros (m' & Hi & [Hin _]%List.filter_In). apply Hm. eauto.
Qed.

Lemma NoDup_ids_snoc l movie :
  hasId (movie_id movie) l = false →
  NoDup (map movie_id l) → NoDup (map movie_id (l ++ [movie])).
Proof.
  intros Hn Hl. rewrite List.map_app. simpl.
  induction l as [|m l IH]; simpl in *.
  - apply NoDup_singleton.
  - apply orb_false_iff in Hn as [Hm Hn].
    apply list.NoDup_cons in Hl as [Hi Hl].
    apply list.NoDup_cons. split; [|auto].
    rewrite list_elem_of_In in *. rewrite in_app_iff. simpl.
    intros [?|[?|[]]]; [tauto | lia].
Qed.

(** ** Case analysis of the fetches *)

Lemma searchMovies_guarded net query pg filters w :
  isBlank query = true → searchMovies net query pg filters w = w.
Proof. intros Hb. unfold searchMovies. by rewrite trim_falsy, Hb. Qed.

(** Splits a goal about a fetch into its paths: the request resolved for
    page 1, resolved for another page, or rejected; for a search, the
    blank query first. *)
Ltac trending_paths net pg :=
  unfold getTrendingMovies;
  destruct (net _) as [?data|]; [destruct (pg =? 1) eqn:?Hpg|]; simpl.

Ltac search_paths net query pg :=
  let Hb := fresh "Hb" in
  destruct (isBlank query) eqn:Hb;
  [ rewrite searchMovies_guarded by exact Hb
  | rewrite searchMovies_visible by exact Hb; simpl;
    destruct (net _) as [?data|]; [destruct (pg =? 1) eqn:?Hpg|]; simpl ].

(** ** Favorites *)

Lemma getTrendingMovies_favorites net pg filters w :
  favorites (store (getTrendingMovies net pg filters w)) = favorites (store w)
  ∧ localStorage (getTrendingMovies net pg filters w) = localStorage w.
Proof. trending_paths net pg; done. Qed.

Lemma searchMovies_favorites net query pg filters w :
  favorites (store (searchMovies net query pg filters w))
  = favorites (store w)
  ∧ localStorage (searchMovies net query pg filters w) !! js "favorites"
    = localStorage w !! js "favorites".
Proof.
  search_paths net query pg; split; try done;
    by rewrite lookup_insert_ne by keys_differ.
Qed.

(** Every operation but the two favorites mutations leaves the favorites
    and their stored encoding alone. *)
Lemma perform_keeps_favorites net a w :
  (∀ movie, a ≠ AddToFavorites movie) →
  (∀ movieId, a ≠ RemoveFromFavorites movieId) →
  favorites (store (perform net a w)) = favorites (store w)
  ∧ localStorage (perform net a w) !! js "favorites"
    = localStorage w !! js "favorites".
Proof.
  intros Ha Hr. destruct a as [pg fs|q pg fs| | | |m|i]; cbn [perform].
  - destruct (getTrendingMovies_favorites net pg fs w) as [-> ->]. done.
  - apply searchMovies_favorites.
  - unfold loadMoreTrending. destruct (_ <? _); [|done].
    destruct (getTrendingMovies_favorites net (currentPage (store w) + 1)
                (Some (currentFilters (store w))) w) as [-> ->]. done.
  - unfold loadMoreResults. destruct (_ <? _); [|done].
    apply searchMovies_favorites.
  - split; [done|]. simpl. apply lookup_delete_ne. keys_differ.
  - by destruct (Ha m).
  - by destruct (Hr i).
Qed.

(** X1. Identifiers stay unique: if no two favorites share an
    identifier, no run of operations makes two of them share one. *)
Theorem favorites_ids_stay_unique
    (run : list (Service Movie * Action Movie)) w :
  uniqueIds w → uniqueIds (performAll run w).
Proof.
  revert w. induction run as [|[net a] run IH]; simpl; [done|].
  intros w Hu. apply IH. unfold uniqueIds in *.
  destruct a as [pg fs|q pg fs| | | |m|i];
    try (match goal with
         | |- context [perform net ?a w] =>
             destruct (perform_keeps_favorites net a w) as [-> _];
             [discriminate..|exact Hu]
         end).
  - simpl. unfold addToFavorites.
    destruct (hasId (movie_id m) (favorites (store w))) eqn:Hm; simpl;
      [exact Hu | by apply NoDup_ids_snoc].
  - simpl. by apply NoDup_ids_filter.
Qed.

(** X2. Membership after a mutation: an identifier is a favorite after
    [addToFavorites] exactly when it was one or is that of the movie
    added, and after [removeFromFavorites] exactly when it was one and is
    not the identifier removed. *)
Theorem isFavorite_after_mutation id movie movieId w :
  isFavorite id (addToFavorites movie w)
  = isFavorite id w || (movie_id movie =? id)
  ∧ isFavorite id (removeFromFavorites movieId w)
    = isFavorite id w && negb (id =? movieId).
Proof.
  split.
  - unfold isFavorite, addToFavorites.
    destruct (hasId (movie_id movie) (favorites (store w))) eqn:Hm; simpl.
    + destruct (Z.eqb_spec (movie_id movie) id) as [<-|_];
        by rewrite ?Hm, ?orb_false_r.
    + rewrite hasId_app. simpl. by rewrite orb_false_r.
  - unfold isFavorite, removeFromFavorites. simpl. apply hasId_filter.
Qed.

(** X3. Adding a movie that is no favorite and removing it again gives
    back the favorites as they were, in the same order, and leaves their
    encoding in the storage. *)
Theorem add_then_remove_restores movie w :
  isFavorite (movie_id movie) w = false →
  favorites (store (removeFromFavorites (movie_id movie)
                      (addToFavorites movie w)))
  = favorites (store w)
  ∧ localStorage (removeFromFavorites (movie_id movie)
                    (addToFavorites movie w)) !! js "favorites"
    = Some (JSON_stringify (favorites (store w))).
Proof.
  unfold isFavorite, removeFromFavorites, addToFavorites. intros Hm.
  rewrite Hm. simpl. rewrite filter_app_last by done.
  rewrite Z.eqb_refl, app_nil_r. split; [done | apply lookup_insert_eq].
Qed.

(** X4. Removing an identifier twice is removing it once, and two
    removals can be done in either order. *)
Theorem removeFromFavorites_idempotent_commutes id id' w :
  removeFromFavorites id (removeFromFavorites id w)
  = removeFromFavorites id w
  ∧ removeFromFavorites id (removeFromFavorites id' w)
    = removeFromFavorites id' (removeFromFavorites id w).
Proof.
  unfold removeFromFavorites. simpl. split.
  - rewrite filter_filter_same. unfold modify, setItem. simpl.
    by rewrite insert_insert_eq.
  - rewrite (filter_filter_swap id id'). unfold modify, setItem. simpl.
    by rewrite !insert_insert_eq.
Qed.

(** X5. Fetching, paging and resetting never touch the favorites: after
    [getTrendingMovies], [searchMovies], [loadMoreTrending],
    [loadMoreResults] or [resetSearch], whatever the service answers, the
    favorites and their entry in the storage are as before. *)
Theorem fetches_keep_favorites net query pg filters w :
  let kept w' :=
    favorites (store w') = favorites (store w)
    ∧ localStorage w' !! js "favorites" = localStorage w !! js "favorites" in
  kept (getTrendingMovies net pg filters w)
  ∧ kept (searchMovies net query pg filters w)
  ∧ kept (loadMoreTrending net w)
  ∧ kept (loadMoreResults net w)
  ∧ kept (resetSearch w).
Proof.
  intros kept. unfold kept.
  refine (conj _ (conj _ (conj _ (conj _ _)))).
  - apply (perform_keeps_favorites net (GetTrendingMovies pg filters));
      discriminate.
  - apply (perform_keeps_favorites net (SearchMovies query pg filters));
      discriminate.
  - apply (perform_keeps_favorites net LoadMoreTrending); discriminate.
  - apply (perform_keeps_favorites net LoadMoreResults); discriminate.
  - apply (perform_keeps_favorites net ResetSearch); discriminate.
Qed.

(** X6. The favorites mutations touch nothing else: after
    [addToFavorites] or [removeFromFavorites] the store differs from the
    one before in its favorites cell at most, no request has been sent,
    and every storage entry other than [favorites] is as before. *)
Theorem favorites_mutations_frame movie movieId w :
  let kept w' :=
    store w' = setFavorites (favorites (store w')) (store w)
    ∧ outbox w' = outbox w
    ∧ ∀ k, k ≠ js "favorites" → localStorage w' !! k = localStorage w !! k in
  kept (addToFavorites movie w) ∧ kept (removeFromFavorites movieId w).
Proof.
  intros kept. unfold kept, addToFavorites, removeFromFavorites. split.
  - destruct (hasId _ _); simpl; split_and!; try done.
    intros k Hk. by apply lookup_insert_ne.
  - simpl. split_and!; try done. intros k Hk. by apply lookup_insert_ne.
Qed.

Lemma addToFavorites_synced movie w :
  favoritesSynced w → favoritesSynced (addToFavorites movie w).
Proof.
  intros Hs. unfold addToFavorites. destruct (hasId _ _); simpl.
  - by rewrite modify_setFavorites_same.
  - apply lookup_insert_eq.
Qed.

Lemma removeFromFavorites_synced movieId w :
  favoritesSynced (removeFromFavorites movieId w).
Proof. apply lookup_insert_eq. Qed.

(** X7. Write-through holds along every run: if the [favorites] entry
    of the storage is the encoding of the favorites in memory, it is so
    after any sequence of operations, fetches and resets included. *)
Theorem favorites_stay_synced
    (run : list (Service Movie * Action Movie)) w :
  favoritesSynced w → favoritesSynced (performAll run w).
Proof.
  revert w. induction run as [|[net a] run IH]; simpl; [done|].
  intros w Hs. apply IH.
  destruct a as [pg fs|q pg fs| | | |m|i];
    try (match goal with
         | |- context [perform net ?a w] =>
             unfold favoritesSynced;
             destruct (perform_keeps_favorites net a w) as [-> ->];
             [discriminate..|exact Hs]
         end).
  - by apply addToFavorites_synced.
  - apply removeFromFavorites_synced.
Qed.

Lemma length_filter_unique id l :
  NoDup (map movie_id l) →
  Nat.add (length (List.filter (fun m => negb (movie_id m =? id)) l))
          (if hasId id l then 1%nat else 0%nat)
  = length l.
Proof.
  induction l as [|m l IH]; simpl; [done|].
  intros [Hm Hl]%list.NoDup_cons.
  destruct (Z.eqb_spec (movie_id m) id) as [E|E]; simpl.
  - assert (Hid : hasId id l = false).
    { destruct (hasId id l) eqn:Hh; [|done]. exfalso. apply Hm.
      apply list_elem_of_In. rewrite E. by apply hasId_In. }
    rewrite filter_absent by done. lia.
  - specialize (IH Hl). lia.
Qed.

(** X22. With unique identifiers, [removeFromFavorites] of a favorite
    drops exactly one entry, and of any other identifier drops none. *)
Theorem removeFromFavorites_drops_one movieId w :
  uniqueIds w →
  Nat.add (length (favorites (store (removeFromFavorites movieId w))))
          (if isFavorite movieId w then 1%nat else 0%nat)
  = length (favorites (store w)).
Proof. intros Hu. simpl. by apply length_filter_unique. Qed.

(** ** The stored query *)

(** What a search does to the storage: nothing, or, when the query is
    not blank and the request resolved, it stores the query. *)
Lemma searchMovies_storage net query pg filters w :
  localStorage (searchMovies net query pg filters w) = localStorage w
  ∨ (isBlank query = false
     ∧ localStorage (searchMovies net query pg filters w)
       = <[js "lastSearch" := query]> (localStorage w)).
Proof. search_paths net query pg; auto. Qed.

Lemma lastSearchVisible_insert query (storage : gmap jsstring jsstring) :
  isBlank query = false →
  lastSearchVisible (<[js "lastSearch" := query]> storage).
Proof.
  intros Hb q. rewrite lookup_insert_eq. by intros [= <-].
Qed.

Lemma lastSearchVisible_favorites (v : jsstring)
    (storage : gmap jsstring jsstring) :
  lastSearchVisible storage →
  lastSearchVisible (<[js "favorites" := v]> storage).
Proof.
  intros Hv q. rewrite lookup_insert_ne by keys_differ. apply Hv.
Qed.

Lemma perform_lastSearchVisible net a w :
  lastSearchVisible (localStorage w) →
  lastSearchVisible (localStorage (perform net a w)).
Proof.
  intros Hv. destruct a as [pg fs|q pg fs| | | |m|i]; cbn [perform].
  - by destruct (getTrendingMovies_favorites net pg fs w) as [_ ->].
  - destruct (searchMovies_storage net q pg fs w) as [->|[Hb ->]];
      [done | by apply lastSearchVisible_insert].
  - unfold loadMoreTrending. destruct (_ <? _); [|done].
    by destruct (getTrendingMovies_favorites net (currentPage (store w) + 1)
                   (Some (currentFilters (store w))) w) as [_ ->].
  - unfold loadMoreResults. destruct (_ <? _); [|done].
    destruct (searchMovies_storage net (searchQuery (store w))
                (currentPage (store w) + 1)
                (Some (currentFilters (store w))) w) as [->|[Hb ->]];
      [done | by apply lastSearchVisible_insert].
  - intros q. simpl. by rewrite lookup_delete_eq.
  - unfold addToFavorites. destruct (hasId _ _); simpl; [done|].
    by apply lastSearchVisible_favorites.
  - simpl. by apply lastSearchVisible_favorites.
Qed.

(** X8. The stored query is never blank: if the storage holds no
    [lastSearch] or one that is not blank, the same is true after any run
    of operations. *)
Theorem lastSearch_never_blank
    (run : list (Service Movie * Action Movie)) w :
  lastSearchVisible (localStorage w) →
  lastSearchVisible (localStorage (performAll run w)).
Proof.
  revert w. induction run as [|[net a] run IH]; simpl; [done|].
  intros w Hv. by apply IH, perform_lastSearchVisible.
Qed.

(** X9. The stored query survives a restart and a reset forgets it: a
    provider started over the storage left by a search that resolved
    begins with that query as its active query, one started after a
    failed search begins with whatever was stored before, and one started
    after [resetSearch] begins with the empty query. *)
Theorem lastSearch_round_trip net query pg filters w (saved : list Movie) :
  isBlank query = false →
  let w' := searchMovies net query pg filters w in
  (∀ data, net (searchRequest query pg filters) = Resolved data →
   searchQuery (initialStore saved (localStorage w')) = query)
  ∧ (net (searchRequest query pg filters) = Rejected →
     searchQuery (initialStore saved (localStorage w'))
     = searchQuery (initialStore saved (localStorage w)))
  ∧ searchQuery (initialStore saved (localStorage (resetSearch w'))) = [].
Proof.
  intros Hb. rewrite searchMovies_visible by done. simpl. split_and!.
  - intros data ->. destruct (pg =? 1); simpl; by rewrite lookup_insert_eq.
  - by intros ->.
  - by rewrite lookup_delete_eq.
Qed.

(** ** The flags *)

(** X10. The error message tells how the last fetch ended: after a
    trending fetch, or a search that passes its guard, the loading flag is
    down and the error is absent when the request resolved, a message
    left by an earlier failure being cleared, and is the failure message
    of that fetch when it was rejected. *)
Theorem error_tells_last_fetch net query pg filters w :
  (isLoading (store (getTrendingMovies net pg filters w)) = false
   ∧ error (store (getTrendingMovies net pg filters w))
     = match net (trendingRequest pg filters) with
       | Resolved _ => None
       | Rejected => Some trendingFailure
       end)
  ∧ (isBlank query = false →
     isLoading (store (searchMovies net query pg filters w)) = false
     ∧ error (store (searchMovies net query pg filters w))
       = match net (searchRequest query pg filters) with
         | Resolved _ => None
         | Rejected => Some searchFailure
         end).
Proof.
  split.
  - unfold getTrendingMovies.
    destruct (net _); [destruct (pg =? 1)|]; done.
  - intros Hb. rewrite searchMovies_visible by done. simpl.
    destruct (net _); [destruct (pg =? 1)|]; done.
Qed.

(** X23. The two lists do not disturb each other: a trending fetch,
    however it ends, leaves the search results, the active query and the
    storage as they were, and a search, however it ends, leaves the
    trending movies as they were. *)
Theorem fetches_keep_the_other_list net query pg filters w :
  (searchResults (store (getTrendingMovies net pg filters w))
   = searchResults (store w)
   ∧ searchQuery (store (getTrendingMovies net pg filters w))
     = searchQuery (store w)
   ∧ localStorage (getTrendingMovies net pg filters w) = localStorage w)
  ∧ trendingMovies (store (searchMovies net query pg filters w))
    = trendingMovies (store w).
Proof.
  split.
  - trending_paths net pg; done.
  - search_paths net query pg; done.
Qed.

(** ** Paging on *)

(** The filters a fetch records rebuild the request it sent: recording
    the empty filters for a fetch without filters adds no parameter. *)
Lemma recorded_filters_request query pg filters :
  trendingRequest pg (Some (default noFilters filters))
  = trendingRequest pg filters
  ∧ searchRequest query pg (Some (default noFilters filters))
    = searchRequest query pg filters.
Proof. by destruct filters. Qed.

Lemma getTrendingMovies_recorded net pg filters w :
  getTrendingMovies net pg (Some (default noFilters filters)) w
  = getTrendingMovies net pg filters w.
Proof.
  unfold getTrendingMovies.
  by rewrite (proj1 (recorded_filters_request [] pg filters)).
Qed.

Lemma searchMovies_recorded net query pg filters w :
  searchMovies net query pg (Some (default noFilters filters)) w
  = searchMovies net query pg filters w.
Proof.
  unfold searchMovies.
  by rewrite (proj2 (recorded_filters_request query pg filters)).
Qed.

(** The cursor and the filters left by a fetch that resolved. *)
Lemma getTrendingMovies_cursor net pg filters w data :
  net (trendingRequest pg filters) = Resolved data →
  let s' := store (getTrendingMovies net pg filters w) in
  currentPage s' = page data ∧ totalPages s' = total_pages data
  ∧ currentFilters s' = default noFilters filters
  ∧ searchQuery s' = searchQuery (store w).
Proof.
  intros Hnet. unfold getTrendingMovies. rewrite Hnet.
  by destruct (pg =? 1).
Qed.

Lemma searchMovies_cursor net query pg filters w data :
  isBlank query = false →
  net (searchRequest query pg filters) = Resolved data →
  let s' := store (searchMovies net query pg filters w) in
  currentPage s' = page data ∧ totalPages s' = total_pages data
  ∧ currentFilters s' = default noFilters filters
  ∧ searchQuery s' = query.
Proof.
  intros Hb Hnet. rewrite searchMovies_visible by done. simpl.
  rewrite Hnet. by destruct (pg =? 1).
Qed.

(** X11. [loadMoreTrending] after a trending fetch that resolved: when
    the response says there are more pages, it is the trending fetch of
    the page after the one the response reports, under the filters of
    the first fetch, so the two requests differ in the page only; when
    the response reports the last page, it does nothing. *)
Theorem loadMoreTrending_continues net net' pg filters w data :
  net (trendingRequest pg filters) = Resolved data →
  let w1 := getTrendingMovies net pg filters w in
  (page data < total_pages data →
   loadMoreTrending net' w1
   = getTrendingMovies net' (page data + 1) filters w1
   ∧ outbox (loadMoreTrending net' w1)
     = outbox w ++ [trendingRequest pg filters;
                    trendingRequest (page data + 1) filters])
  ∧ (total_pages data ≤ page data → loadMoreTrending net' w1 = w1).
Proof.
  intros Hnet w1.
  destruct (getTrendingMovies_cursor net pg filters w data Hnet)
    as (Hp & Ht & Hf & _).
  fold w1 in Hp, Ht, Hf. unfold loadMoreTrending. rewrite Hp, Ht, Hf.
  split; intros Hlt.
  - replace (page data <? total_pages data) with true by lia.
    rewrite getTrendingMovies_recorded. split; [done|].
    rewrite getTrendingMovies_outbox. unfold w1.
    rewrite getTrendingMovies_outbox. by rewrite <- app_assoc.
  - by replace (page data <? total_pages data) with false by lia.
Qed.

(** X12. [loadMoreResults] after a search that resolved: when the
    response says there are more pages, it is the search of the same
    query for the page after the one the response reports, under the
    filters of the first search; when the response reports the last page,
    it does nothing. *)
Theorem loadMoreResults_continues net net' query pg filters w data :
  isBlank query = false →
  net (searchRequest query pg filters) = Resolved data →
  let w1 := searchMovies net query pg filters w in
  (page data < total_pages data →
   loadMoreResults net' w1
   = searchMovies net' query (page data + 1) filters w1
   ∧ outbox (loadMoreResults net' w1)
     = outbox w ++ [searchRequest query pg filters;
                    searchRequest query (page data + 1) filters])
  ∧ (total_pages data ≤ page data → loadMoreResults net' w1 = w1).
Proof.
  intros Hb Hnet w1.
  destruct (searchMovies_cursor net query pg filters w data Hb Hnet)
    as (Hp & Ht & Hf & Hq).
  fold w1 in Hp, Ht, Hf, Hq. unfold loadMoreResults.
  rewrite Hp, Ht, Hf, Hq. split; intros Hlt.
  - replace (page data <? total_pages data) with true by lia.
    rewrite searchMovies_recorded. split; [done|].
    rewrite searchMovies_outbox by done. unfold w1.
    rewrite searchMovies_outbox by done. by rewrite <- app_assoc.
  - by replace (page data <? total_pages data) with false by lia.
Qed.

(** X13. One cursor serves both lists. After a trending fetch that
    resolved with more pages to come, [loadMoreResults] searches the
    active query for the page after the trending page, under the trending
    filters; after a search that resolved with more pages to come,
    [loadMoreTrending] fetches the trending page after the search page,
    under the search filters. *)
Theorem cursor_is_shared net net' query pg filters w data :
  page data < total_pages data →
  (net (trendingRequest pg filters) = Resolved data →
   let w1 := getTrendingMovies net pg filters w in
   loadMoreResults net' w1
   = searchMovies net' (searchQuery (store w)) (page data + 1) filters w1)
  ∧ (isBlank query = false →
     net (searchRequest query pg filters) = Resolved data →
     let w1 := searchMovies net query pg filters w in
     loadMoreTrending net' w1
     = getTrendingMovies net' (page data + 1) filters w1).
Proof.
  intros Hlt. split.
  - intros Hnet w1.
    destruct (getTrendingMovies_cursor net pg filters w data Hnet)
      as (Hp & Ht & Hf & Hq).
    fold w1 in Hp, Ht, Hf, Hq. unfold loadMoreResults.
    rewrite Hp, Ht, Hf, Hq.
    replace (page data <? total_pages data) with true by lia.
    apply searchMovies_recorded.
  - intros Hb Hnet w1.
    destruct (searchMovies_cursor net query pg filters w data Hb Hnet)
      as (Hp & Ht & Hf & _).
    fold w1 in Hp, Ht, Hf. unfold loadMoreTrending. rewrite Hp, Ht, Hf.
    replace (page data <? total_pages data) with true by lia.
    apply getTrendingMovies_recorded.
Qed.

(** ** Resetting *)

(** X14. [resetSearch] composes: doing it twice is doing it once; after
    it [loadMoreResults] does nothing, whatever the counters say, because
    the active query is empty; and it leaves the trending movies, the
    favorites, the total page count, the two flags, the outbox and every
    storage entry other than [lastSearch] as they were. *)
Theorem resetSearch_composes net w :
  resetSearch (resetSearch w) = resetSearch w
  ∧ loadMoreResults net (resetSearch w) = resetSearch w
  ∧ (trendingMovies (store (resetSearch w)) = trendingMovies (store w)
     ∧ favorites (store (resetSearch w)) = favorites (store w)
     ∧ totalPages (store (resetSearch w)) = totalPages (store w)
     ∧ isLoading (store (resetSearch w)) = isLoading (store w)
     ∧ error (store (resetSearch w)) = error (store w)
     ∧ outbox (resetSearch w) = outbox w
     ∧ ∀ k, k ≠ js "lastSearch" →
            localStorage (resetSearch w) !! k = localStorage w !! k).
Proof.
  split_and!; try done.
  - unfold resetSearch, removeItem, modify. simpl.
    by rewrite delete_delete_eq.
  - unfold loadMoreResults. destruct (_ <? _); [|done].
    by apply searchMovies_guarded.
  - intros k Hk. simpl. by apply lookup_delete_ne.
Qed.

(** X15. [resetSearch] rewinds the cursor that the trending list
    shares: after it, [loadMoreTrending] asks for trending page 2 without
    filters whenever the total page count is above 1, whatever page had
    been reached, and does nothing otherwise. *)
Theorem resetSearch_rewinds_trending net w :
  (1 < totalPages (store w) →
   loadMoreTrending net (resetSearch w)
   = getTrendingMovies net 2 None (resetSearch w)
   ∧ outbox (loadMoreTrending net (resetSearch w))
     = outbox w ++ [trendingRequest 2 None])
  ∧ (totalPages (store w) ≤ 1 →
     loadMoreTrending net (resetSearch w) = resetSearch w).
Proof.
  unfold loadMoreTrending.
  change (currentPage (store (resetSearch w))) with 1.
  change (totalPages (store (resetSearch w))) with (totalPages (store w)).
  change (currentFilters (store (resetSearch w))) with (default noFilters None).
  split; intros Hlt.
  - replace (1 <? totalPages (store w)) with true by lia.
    rewrite getTrendingMovies_recorded. split; [done|].
    by rewrite getTrendingMovies_outbox.
  - by replace (1 <? totalPages (store w)) with false by lia.
Qed.

(** ** What a request carries *)

Ltac other_key Hk :=
  let E := fresh "E" in
  intros E; apply Hk; tauto.

(** X16. A trending request goes to [/trending/movie/day] and carries
    the page and, at most, the three filter parameters; a search request
    goes to [/search/movie] and carries the query as it was given, not
    trimmed, the page, [include_adult] set to false and, at most, the
    three filter parameters. No filter replaces any of these. *)
Theorem request_contents query pg filters :
  (url (trendingRequest pg filters) = js "/trending/movie/day"
   ∧ params (trendingRequest pg filters) !! js "page" = Some (PNum pg)
   ∧ ∀ k, ¬ In k [js "page"; js "with_genres"; js "primary_release_year";
                  js "vote_average_gte"] →
          params (trendingRequest pg filters) !! k = None)
  ∧ (url (searchRequest query pg filters) = js "/search/movie"
     ∧ params (searchRequest query pg filters) !! js "query"
       = Some (PStr query)
     ∧ params (searchRequest query pg filters) !! js "page" = Some (PNum pg)
     ∧ params (searchRequest query pg filters) !! js "include_adult"
       = Some (PBool false)
     ∧ ∀ k, ¬ In k [js "query"; js "page"; js "include_adult";
                    js "with_genres"; js "primary_release_year";
                    js "vote_average_gte"] →
            params (searchRequest query pg filters) !! k = None).
Proof.
  unfold trendingRequest, searchRequest, applyFilters. simpl.
  destruct filters as [[[|g gs] [|y ys] [|r rs]]|]; simpl;
    split_and!; try reflexivity; try (by lookup_params);
    intros k Hk;
    repeat (rewrite lookup_insert_ne by other_key Hk);
    apply lookup_empty.
Qed.

(** ** Calls and responses *)

(** Called and settled in one go, the two steps are the whole fetch. *)
Lemma fetch_in_two_steps net query pg filters w :
  getTrendingMovies net pg filters w
  = getTrendingMovies_settled pg filters (net (trendingRequest pg filters))
      (getTrendingMovies_called pg filters w)
  ∧ (isBlank query = false →
     searchMovies net query pg filters w
     = searchMovies_settled query pg filters
         (net (searchRequest query pg filters))
         (searchMovies_called query pg filters w))
  ∧ (isBlank query = true → searchMovies_called query pg filters w = w).
Proof.
  split_and!; [done | |]; intros Hb.
  - rewrite searchMovies_visible by done. unfold searchMovies_called.
    by rewrite trim_falsy, Hb.
  - unfold searchMovies_called. by rewrite trim_falsy, Hb.
Qed.

Lemma loadMoreTrending_in_two_steps net w :
  loadMoreTrending net w
  = if currentPage (store w) <? totalPages (store w)
    then getTrendingMovies_settled (currentPage (store w) + 1)
           (Some (currentFilters (store w)))
           (net (trendingRequest (currentPage (store w) + 1)
                   (Some (currentFilters (store w)))))
           (loadMoreTrending_called w)
    else w.
Proof.
  unfold loadMoreTrending, loadMoreTrending_called.
  by destruct (_ <? _).
Qed.

(** X17. What a provider sends when it is mounted: the first trending
    page without filters, always, followed by page 1 of the stored query
    when the storage holds one that is not blank; and it is loading, with
    no error. *)
Theorem mount_requests (saved : list Movie)
    (storage : gmap jsstring jsstring) :
  outbox (mounted (initialWorld saved storage))
  = trendingRequest 1 None
    :: match storage !! js "lastSearch" with
       | Some q => if isBlank q then [] else [searchRequest q 1 None]
       | None => []
       end
  ∧ isLoading (store (mounted (initialWorld saved storage))) = true
  ∧ error (store (mounted (initialWorld saved storage))) = None.
Proof.
  unfold mounted, initialWorld, initialStore, searchMovies_called. simpl.
  destruct (storage !! js "lastSearch") as [[|c q]|]; simpl; try done.
  change (is_whitespace c && isBlank q) with (isBlank (c :: q)).
  rewrite trim_falsy. by destruct (isBlank (c :: q)).
Qed.

(** X18. A trending fetch and a search in flight together: whichever
    response arrives first, the two result lists, the favorites, the
    active query, the storage and the loading flag end up the same, and
    the loading flag is already down after the first response; but when
    both resolve, the page counters and the recorded filters are those of
    the response that arrived last. *)
Theorem responses_in_either_order pg filters query pg' filters'
    (ot os : Outcome Movie) w :
  let T := getTrendingMovies_settled pg filters in
  let S := searchMovies_settled query pg' filters' in
  let A := S os (T ot w) in
  let B := T ot (S os w) in
  (trendingMovies (store A) = trendingMovies (store B)
   ∧ searchResults (store A) = searchResults (store B)
   ∧ favorites (store A) = favorites (store B)
   ∧ searchQuery (store A) = searchQuery (store B)
   ∧ localStorage A = localStorage B
   ∧ isLoading (store A) = false ∧ isLoading (store B) = false
   ∧ isLoading (store (T ot w)) = false
   ∧ isLoading (store (S os w)) = false)
  ∧ (∀ dt ds, ot = Resolved dt → os = Resolved ds →
     (currentPage (store A) = page ds
      ∧ totalPages (store A) = total_pages ds
      ∧ currentFilters (store A) = default noFilters filters')
     ∧ (currentPage (store B) = page dt
        ∧ totalPages (store B) = total_pages dt
        ∧ currentFilters (store B) = default noFilters filters)).
Proof.
  intros T S A B.
  unfold A, B, T, S, getTrendingMovies_settled, searchMovies_settled.
  split.
  - destruct ot, os, (pg =? 1), (pg' =? 1); simpl; done.
  - intros dt ds -> ->. destruct (pg =? 1), (pg' =? 1); simpl; done.
Qed.

(** X19. Two calls of [loadMoreTrending] made before the first response
    arrives ask for the same page: the cursor moves only when a response
    arrives. When both resolve with that page, it is appended twice. *)
Theorem loadMoreTrending_called_twice w data :
  0 < currentPage (store w) < totalPages (store w) →
  let next := currentPage (store w) + 1 in
  let cf := Some (currentFilters (store w)) in
  let w2 := loadMoreTrending_called (loadMoreTrending_called w) in
  outbox w2
  = outbox w ++ [trendingRequest next cf; trendingRequest next cf]
  ∧ trendingMovies
      (store (getTrendingMovies_settled next cf (Resolved data)
                (getTrendingMovies_settled next cf (Resolved data) w2)))
    = trendingMovies (store w)
      ++ default [] (results data) ++ default [] (results data).
Proof.
  intros Hc next cf w2. unfold w2, loadMoreTrending_called.
  replace (currentPage (store w) <? totalPages (store w)) with true by lia.
  simpl.
  replace (currentPage (store w) <? totalPages (store w)) with true by lia.
  simpl. fold next cf. split; [by rewrite <- app_assoc|].
  unfold getTrendingMovies_settled.
  replace (next =? 1) with false by (unfold next; lia).
  simpl. by rewrite <- app_assoc.
Qed.

End Behaviour.

(** ** Lookups *)

Lemma js_inj (a b : string) : js a = js b → a = b.
Proof.
  unfold js. intros E.
  rewrite <- (string_of_list_ascii_of_string a),
          <- (string_of_list_ascii_of_string b).
  f_equal. revert E.
  generalize (list_ascii_of_string a) (list_ascii_of_string b).
  induction l as [|x l IH]; intros [|y l']; simpl; try discriminate;
    [done|].
  intros [= Exy El]. f_equal; [|by apply IH].
  by rewrite <- (ascii_N_embedding x), <- (ascii_N_embedding y), Exy.
Qed.

Lemma to_int_proper (n : Z) :
  Z.to_int n ≠ Decimal.Pos Decimal.Nil ∧ Z.to_int n ≠ Decimal.Neg Decimal.Nil.
Proof.
  split; intros E; pose proof (DecimalZ.of_to n) as Hn;
    rewrite E in Hn; simpl in Hn; subst n; discriminate E.
Qed.

Lemma numberToString_inj (a b : Z) :
  numberToString a = numberToString b → a = b.
Proof.
  intros E%js_inj. apply DecimalZ.to_int_inj.
  destruct (to_int_proper a) as [Ha Ha'], (to_int_proper b) as [Hb Hb'].
  pose proof (NilZero.isi _ Ha Ha') as Ia.
  pose proof (NilZero.isi _ Hb Hb') as Ib.
  rewrite E in Ia. congruence.
Qed.

Lemma digits_numeral (d : Decimal.uint) :
  forallb numeral (js (NilEmpty.string_of_uint d)) = true.
Proof. unfold js. induction d; simpl; auto. Qed.

Lemma numberToString_numeral (n : Z) :
  forallb numeral (numberToString n) = true.
Proof.
  unfold numberToString.
  destruct (Z.to_int n) as [d|d];
    [ change (forallb numeral (js (NilZero.string_of_uint d)) = true)
    | change (numeral 45%N && forallb numeral (js (NilZero.string_of_uint d))
              = true) ];
    destruct d; try reflexivity; apply (digits_numeral (_ d)).
Qed.

Lemma numberToString_no_slash (n : Z) : 47%N ∉ numberToString n.
Proof.
  intros Hin%list_elem_of_In. pose proof (numberToString_numeral n) as Hf.
  rewrite forallb_forall in Hf. by apply Hf in Hin.
Qed.


(** X20. Every lookup has its own address: the request of a lookup
    determines the identifier it is for, and the details, credits and
    videos requests of any two identifiers never coincide. *)
Theorem lookup_endpoints_distinct (a b : Z) :
  (detailsRequest a = detailsRequest b → a = b)
  ∧ (creditsRequest a = creditsRequest b → a = b)
  ∧ (videosRequest a = videosRequest b → a = b)
  ∧ detailsRequest a ≠ creditsRequest b
  ∧ detailsRequest a ≠ videosRequest b
  ∧ creditsRequest a ≠ videosRequest b.
Proof.
  pose proof (numberToString_no_slash a) as Ha.
  pose proof (numberToString_no_slash b) as Hb.
  unfold detailsRequest, creditsRequest, videosRequest.
  split_and!; intros [= E].
  - by apply numberToString_inj.
  - by apply app_inv_tail, numberToString_inj in E.
  - by apply app_inv_tail, numberToString_inj in E.
  - apply Ha. rewrite E. apply elem_of_app. right. by left.
  - apply Ha. rewrite E. apply elem_of_app. right. by left.
  - change (js "/credits") with (47%N :: js "credits") in E.
    change (js "/videos") with (47%N :: js "videos") in E.
    by apply not_elem_of_app_cons_inv_l in E as (_ & _ & E).
Qed.

Section LookupProperties.
Context {Movie MovieDetails Credits Video : Type}.
Implicit Types (w : World Movie) (movieId : Z).

(** X21. Lookups stay out of the store: whether it fails or not, a
    details, credits or videos lookup sends its one request and leaves
    every cell of the store, the error and the loading flag among them,
    and the storage as they were; a failed one returns no payload, and
    the videos lookup returns the empty list both when it fails and when
    the payload has no results. *)
Theorem lookups_stay_out_of_the_store
    (netD : Request → Settled MovieDetails)
    (netC : Request → Settled Credits)
    (netV : Request → Settled (option (list Video))) movieId w :
  let d := getMovieDetails netD movieId w in
  let c := getMovieCredits netC movieId w in
  let v := getMovieVideos netV movieId w in
  (d.2 = send (detailsRequest movieId) w
   ∧ c.2 = send (creditsRequest movieId) w
   ∧ v.2 = send (videosRequest movieId) w)
  ∧ (store d.2 = store w ∧ store c.2 = store w ∧ store v.2 = store w)
  ∧ (localStorage d.2 = localStorage w ∧ localStorage c.2 = localStorage w
     ∧ localStorage v.2 = localStorage w)
  ∧ (netD (detailsRequest movieId) = Failed → d.1 = None)
  ∧ (netC (creditsRequest movieId) = Failed → c.1 = None)
  ∧ (netV (videosRequest movieId) = Failed
     ∨ netV (videosRequest movieId) = Fulfilled None → v.1 = []).
Proof.
  intros d c v. unfold d, c, v, getMovieDetails, getMovieCredits,
    getMovieVideos.
  destruct (netD _), (netC _), (netV _) as [[r|]|]; simpl;
    split_and!; try done; intros [E|E]; done.
Qed.

End LookupProperties.

(** * The theorems at work on the sample data *)

(** The first page replaces what was there; the second page is appended
    to it, [alien] now twice among the trending movies. *)
Lemma fetch_replaces_or_appends_witness :
  (trendingMovies
     (store (getTrendingMovies Sample.online 1 (Some Sample.drama)
               Sample.browsing))
   = [Sample.casablanca; Sample.alien]
   ∧ searchResults
       (store (searchMovies Sample.online (js "bra") 1 (Some Sample.drama)
                 Sample.browsing))
     = [Sample.casablanca; Sample.alien])
  ∧ (trendingMovies
       (store (getTrendingMovies Sample.online 2 (Some Sample.drama)
                 Sample.browsing))
     = [Sample.alien; Sample.brazil; Sample.casablanca; Sample.alien]
     ∧ searchResults
         (store (searchMovies Sample.online (js "bra") 2 (Some Sample.drama)
                   Sample.browsing))
       = [Sample.brazil; Sample.casablanca; Sample.alien]).
Proof.
  pose proof (fetch_replaces_or_appends Sample.online (js "bra") 1
                (Some Sample.drama) Sample.browsing Sample.secondPage)
    as [T1 S1].
  pose proof (fetch_replaces_or_appends Sample.online (js "bra") 2
                (Some Sample.drama) Sample.browsing Sample.secondPage)
    as [T2 S2].
  split_and!.
  - apply (T1 eq_refl). reflexivity.
  - apply (S1 eq_refl eq_refl). reflexivity.
  - apply (T2 eq_refl). lia.
  - apply (S2 eq_refl eq_refl). lia.
Defined.

(** C2 as stated fails on the active query. A failed search for [alien]
    while [bra] is the active query: the query is not blank, the request was rejected, and the active query is
    no longer what it was before the call. *)
Lemma failed_search_changes_query :
  isBlank (js "alien") = false
  ∧ Sample.offline (searchRequest (js "alien") 1 None) = Rejected
  ∧ searchQuery (store Sample.browsing) = js "bra"
  ∧ searchQuery (store Sample.searchDown) = js "alien"
  ∧ searchQuery (store Sample.searchDown)
    ≠ searchQuery (store Sample.browsing).
Proof. vm_compute. split_and!; [reflexivity..|discriminate]. Qed.

Lemma failed_fetch_frame_witness :
  (error (store Sample.trendingDown) = Some trendingFailure
   ∧ trendingMovies (store Sample.trendingDown)
     = [Sample.alien; Sample.brazil]
   ∧ searchQuery (store Sample.trendingDown) = js "bra"
   ∧ localStorage Sample.trendingDown = ∅)
  ∧ (error (store Sample.searchDown2) = Some searchFailure
     ∧ searchResults (store Sample.searchDown2) = [Sample.brazil]
     ∧ searchQuery (store Sample.searchDown2) = js "alien"
     ∧ localStorage Sample.searchDown2 = ∅).
Proof.
  pose proof (failed_fetch_frame Sample.offline (js "alien") 2
                (Some Sample.drama) Sample.browsing) as [T S].
  specialize (T eq_refl). specialize (S eq_refl eq_refl).
  destruct T as (Te & _ & (Tm & _) & Tq & Tl).
  destruct S as (Se & _ & (_ & Sm & _) & Sq & Sl).
  split_and!; assumption.
Defined.

(** Three spaces; a tab, a line feed and a no-break space; nothing. *)
Lemma blank_search_is_noop_witness :
  searchMovies Sample.online (js "   ") 1 None Sample.browsing
  = Sample.browsing
  ∧ searchMovies Sample.online [0x09; 0x0A; 0xA0]%N 2 (Some Sample.drama)
      Sample.browsing = Sample.browsing
  ∧ searchMovies Sample.online [] 1 None Sample.browsing = Sample.browsing.
Proof. split_and!; apply blank_search_is_noop; reflexivity. Defined.

(** [drama] has a genre and a rating but no year. *)
Lemma filters_to_params_witness :
  outbox (searchMovies Sample.offline (js "bra") 1 (Some Sample.drama)
            Sample.browsing)
  = [searchRequest (js "bra") 1 (Some Sample.drama)]
  ∧ params (searchRequest (js "bra") 1 (Some Sample.drama))
    !! js "with_genres" = Some (PStr (js "18"))
  ∧ params (searchRequest (js "bra") 1 (Some Sample.drama))
    !! js "primary_release_year" = None
  ∧ params (searchRequest (js "bra") 1 (Some Sample.drama))
    !! js "vote_average_gte" = Some (PStr (js "7")).
Proof.
  pose proof (filters_to_params Sample.offline (js "bra") 1 Sample.drama
                Sample.browsing) as [_ S].
  destruct (S eq_refl) as (So & (_ & Sg) & (Sy & _) & (_ & Sr)).
  split_and!.
  - exact So.
  - apply Sg. discriminate.
  - apply Sy. reflexivity.
  - apply Sr. discriminate.
Defined.

(** C5 as stated fails for [loadMoreResults]. With page 1 of 3 reached
    through the trending list and no active query, the current page is
    below the total, yet [loadMoreResults] sends no request at all, and so
    not the one for page 2, and changes nothing. *)
Lemma loadMoreResults_without_query_sends_nothing :
  currentPage (store Sample.trendingLoaded)
  < totalPages (store Sample.trendingLoaded)
  ∧ searchQuery (store Sample.trendingLoaded) = []
  ∧ loadMoreResults Sample.online Sample.trendingLoaded
    = Sample.trendingLoaded
  ∧ outbox (loadMoreResults Sample.online Sample.trendingLoaded)
    = outbox Sample.trendingLoaded
  ∧ outbox (loadMoreResults Sample.online Sample.trendingLoaded)
    ≠ outbox Sample.trendingLoaded
      ++ [searchRequest (searchQuery (store Sample.trendingLoaded))
            (currentPage (store Sample.trendingLoaded) + 1)
            (Some (currentFilters (store Sample.trendingLoaded)))].
Proof.
  split_and!; [done | reflexivity.. |].
  intros E. vm_compute in E. discriminate E.
Qed.

(** On page 1 of 1 nothing happens; on page 1 of 3 page 2 is asked for,
    unless it is a search and no query is active. *)
Lemma loadMore_guarded_witness :
  (loadMoreTrending Sample.offline Sample.fresh = Sample.fresh
   ∧ loadMoreResults Sample.offline Sample.fresh = Sample.fresh)
  ∧ outbox (loadMoreTrending Sample.offline Sample.browsing)
    = [trendingRequest 2 (Some Sample.drama)]
  ∧ outbox (loadMoreResults Sample.offline Sample.browsing)
    = [searchRequest (js "bra") 2 (Some Sample.drama)]
  ∧ loadMoreResults Sample.offline Sample.trendingLoaded
    = Sample.trendingLoaded.
Proof.
  pose proof (loadMore_guarded Sample.offline Sample.fresh) as [Stop _].
  pose proof (loadMore_guarded Sample.offline Sample.browsing) as [_ Go].
  pose proof (loadMore_guarded Sample.offline Sample.trendingLoaded)
    as [_ Idle].
  split; [apply Stop; simpl; lia|].
  destruct Go as (_ & Ot & _ & Os & _); [simpl; lia|].
  destruct Idle as (_ & _ & _ & _ & Ib); [simpl; lia|].
  split_and!; [exact Ot | apply Os; reflexivity | apply Ib; reflexivity].
Defined.

Lemma addToFavorites_idempotent_witness :
  addToFavorites Sample.alien (addToFavorites Sample.alien Sample.browsing)
  = addToFavorites Sample.alien Sample.browsing
  ∧ addToFavorites Sample.alien Sample.withFavorite = Sample.withFavorite.
Proof.
  pose proof (addToFavorites_idempotent Sample.alien Sample.browsing)
    as [I _].
  pose proof (addToFavorites_idempotent Sample.alien Sample.withFavorite)
    as [_ P].
  split; [exact I | exact (P eq_refl)].
Defined.

(** [brazil] is no favorite; removing it rewrites the same entry. *)
Lemma removeFromFavorites_absent_witness :
  favorites (store (removeFromFavorites 68 Sample.withFavorite))
  = [Sample.alien]
  ∧ removeFromFavorites 68 Sample.withFavorite = Sample.withFavorite.
Proof.
  pose proof (removeFromFavorites_absent 68 Sample.withFavorite eq_refl)
    as (M & _ & S).
  split; [exact M | apply S; reflexivity].
Defined.

Lemma favorites_write_through_witness :
  favoritesSynced (addToFavorites Sample.brazil Sample.withFavorite)
  ∧ favoritesSynced (removeFromFavorites 348 Sample.withFavorite).
Proof.
  apply (favorites_write_through Sample.brazil 348 Sample.withFavorite).
  reflexivity.
Defined.

Lemma lastSearch_written_on_success_only_witness :
  (localStorage Sample.searchDown !! js "lastSearch" = None
   ∧ searchQuery (store Sample.searchDown) = js "alien")
  ∧ localStorage Sample.searchUp !! js "lastSearch" = Some (js "alien").
Proof.
  pose proof (lastSearch_written_on_success_only Sample.offline (js "alien")
                1 None Sample.browsing eq_refl) as [D _].
  pose proof (lastSearch_written_on_success_only Sample.online (js "alien")
                1 None Sample.browsing eq_refl) as [_ U].
  destruct (D eq_refl) as (_ & Dl & Dq).
  split; [split; [exact Dl | exact Dq] | exact (U _ eq_refl)].
Defined.

(** * The further properties at work on the sample data *)

Lemma favorites_ids_stay_unique_witness :
  uniqueIds Sample.withFavorite
  ∧ uniqueIds (performAll Sample.session Sample.withFavorite).
Proof.
  assert (Hu : uniqueIds Sample.withFavorite) by apply NoDup_singleton.
  split; [exact Hu|].
  exact (favorites_ids_stay_unique Sample.session Sample.withFavorite Hu).
Defined.

Lemma add_then_remove_restores_witness :
  favorites (store (removeFromFavorites 68
                      (addToFavorites Sample.brazil Sample.withFavorite)))
  = [Sample.alien]
  ∧ localStorage (removeFromFavorites 68
                    (addToFavorites Sample.brazil Sample.withFavorite))
    !! js "favorites"
    = Some (Sample.stringify [Sample.alien]).
Proof.
  exact (add_then_remove_restores Sample.brazil Sample.withFavorite eq_refl).
Defined.

Lemma favorites_mutations_frame_witness :
  localStorage (addToFavorites Sample.alien Sample.searchUp)
  !! js "lastSearch" = Some (js "alien")
  ∧ localStorage (removeFromFavorites 68 Sample.searchUp)
    !! js "lastSearch" = Some (js "alien").
Proof.
  destruct (favorites_mutations_frame Sample.alien 68 Sample.searchUp)
    as [(_ & _ & A) (_ & _ & R)].
  split.
  - rewrite A; [reflexivity | keys_differ].
  - rewrite R; [reflexivity | keys_differ].
Defined.

Lemma favorites_stay_synced_witness :
  favoritesSynced (performAll Sample.session Sample.withFavorite).
Proof.
  apply (favorites_stay_synced Sample.session Sample.withFavorite).
  reflexivity.
Defined.

Lemma lastSearch_never_blank_witness :
  lastSearchVisible
    (localStorage
       (performAll Sample.session
          (initialWorld (Movie := Sample.movie) [] Sample.returning))).
Proof.
  apply (lastSearch_never_blank Sample.session
           (initialWorld [] Sample.returning)).
  intros q Hq. vm_compute in Hq. injection Hq as <-. reflexivity.
Defined.

Lemma lastSearch_round_trip_witness :
  searchQuery (initialStore (Movie := Sample.movie) []
                 (localStorage Sample.searchUp)) = js "alien"
  ∧ searchQuery (initialStore (Movie := Sample.movie) []
                   (localStorage Sample.searchDown)) = [].
Proof.
  pose proof (lastSearch_round_trip Sample.online (js "alien") 1 None
                Sample.browsing [] eq_refl) as (U & _ & _).
  pose proof (lastSearch_round_trip Sample.offline (js "alien") 1 None
                Sample.browsing [] eq_refl) as (_ & D & _).
  split; [exact (U _ eq_refl) | exact (D eq_refl)].
Defined.

Lemma error_tells_last_fetch_witness :
  error (store (searchMovies Sample.online (js "alien") 1 None
                  Sample.searchDown)) = None
  ∧ error (store Sample.searchDown) = Some searchFailure.
Proof.
  pose proof (error_tells_last_fetch Sample.online (js "alien") 1 None
                Sample.searchDown) as [_ U].
  pose proof (error_tells_last_fetch Sample.offline (js "alien") 1 None
                Sample.browsing) as [_ D].
  split; [exact (proj2 (U eq_refl)) | exact (proj2 (D eq_refl))].
Defined.

Lemma loadMoreTrending_continues_witness :
  outbox (loadMoreTrending Sample.offline
            (getTrendingMovies (Sample.answering Sample.firstPage) 1
               (Some Sample.drama) Sample.browsing))
  = [trendingRequest 1 (Some Sample.drama);
     trendingRequest 2 (Some Sample.drama)]
  ∧ loadMoreTrending Sample.offline
      (getTrendingMovies (Sample.answering Sample.lastPage) 3 None
         Sample.browsing)
    = getTrendingMovies (Sample.answering Sample.lastPage) 3 None
        Sample.browsing.
Proof.
  pose proof (loadMoreTrending_continues (Sample.answering Sample.firstPage)
                Sample.offline 1 (Some Sample.drama) Sample.browsing
                Sample.firstPage eq_refl) as [More _].
  pose proof (loadMoreTrending_continues (Sample.answering Sample.lastPage)
                Sample.offline 3 None Sample.browsing
                Sample.lastPage eq_refl) as [_ Last].
  split; [apply More; simpl; lia | apply Last; simpl; lia].
Defined.

Lemma loadMoreResults_continues_witness :
  outbox (loadMoreResults Sample.offline
            (searchMovies (Sample.answering Sample.firstPage) (js "alien") 1
               None Sample.browsing))
  = [searchRequest (js "alien") 1 None; searchRequest (js "alien") 2 None]
  ∧ loadMoreResults Sample.offline
      (searchMovies (Sample.answering Sample.lastPage) (js "alien") 3 None
         Sample.browsing)
    = searchMovies (Sample.answering Sample.lastPage) (js "alien") 3 None
        Sample.browsing.
Proof.
  pose proof (loadMoreResults_continues (Sample.answering Sample.firstPage)
                Sample.offline (js "alien") 1 None Sample.browsing
                Sample.firstPage eq_refl eq_refl) as [More _].
  pose proof (loadMoreResults_continues (Sample.answering Sample.lastPage)
                Sample.offline (js "alien") 3 None Sample.browsing
                Sample.lastPage eq_refl eq_refl) as [_ Last].
  split; [apply More; simpl; lia | apply Last; simpl; lia].
Defined.

(** After the first trending page, [loadMoreResults] searches [bra] on
    page 2; after the first page of a search, [loadMoreTrending] fetches
    trending page 2. *)
Lemma cursor_is_shared_witness :
  loadMoreResults Sample.offline
    (getTrendingMovies (Sample.answering Sample.firstPage) 1 None
       Sample.browsing)
  = searchMovies Sample.offline (js "bra") 2 None
      (getTrendingMovies (Sample.answering Sample.firstPage) 1 None
         Sample.browsing)
  ∧ loadMoreTrending Sample.offline
      (searchMovies (Sample.answering Sample.firstPage) (js "alien") 1 None
         Sample.browsing)
    = getTrendingMovies Sample.offline 2 None
        (searchMovies (Sample.answering Sample.firstPage) (js "alien") 1
           None Sample.browsing).
Proof.
  assert (Hlt : page Sample.firstPage < total_pages Sample.firstPage)
    by (simpl; lia).
  pose proof (cursor_is_shared (Sample.answering Sample.firstPage)
                Sample.offline (js "alien") 1 None Sample.browsing
                Sample.firstPage Hlt) as [T S].
  split; [exact (T eq_refl) | exact (S eq_refl eq_refl)].
Defined.

Lemma resetSearch_composes_witness :
  loadMoreResults Sample.online (resetSearch Sample.searchUp)
  = resetSearch Sample.searchUp
  ∧ localStorage (resetSearch Sample.withFavorite) !! js "favorites"
    = Some (Sample.stringify [Sample.alien]).
Proof.
  destruct (resetSearch_composes Sample.online Sample.searchUp)
    as (_ & L & _).
  destruct (resetSearch_composes Sample.online Sample.withFavorite)
    as (_ & _ & _ & _ & _ & _ & _ & _ & K).
  split; [exact L | rewrite K; [reflexivity | keys_differ]].
Defined.

Lemma resetSearch_rewinds_trending_witness :
  outbox (loadMoreTrending Sample.offline (resetSearch Sample.browsing))
  = [trendingRequest 2 None]
  ∧ loadMoreTrending Sample.offline (resetSearch Sample.fresh)
    = resetSearch Sample.fresh.
Proof.
  destruct (resetSearch_rewinds_trending Sample.offline Sample.browsing)
    as [Go _].
  destruct (resetSearch_rewinds_trending Sample.offline Sample.fresh)
    as [_ Stop].
  split; [apply Go; simpl; lia | apply Stop; simpl; lia].
Defined.

(** A query with spaces around it is sent as it is; a trending request
    has no [query]. *)
Lemma request_contents_witness :
  params (searchRequest (js " alien ") 1 (Some Sample.drama)) !! js "query"
  = Some (PStr (js " alien "))
  ∧ params (trendingRequest 1 (Some Sample.drama)) !! js "query" = None.
Proof.
  destruct (request_contents (js " alien ") 1 (Some Sample.drama))
    as [(_ & _ & T) (_ & S & _)].
  split; [exact S|]. apply T. intros Hin. simpl in Hin.
  destruct Hin as [E|[E|[E|[E|[]]]]]; revert E; keys_differ.
Defined.

Lemma responses_in_either_order_witness :
  currentPage
    (store (searchMovies_settled (js "alien") 1 None
              (Resolved Sample.secondPage)
              (getTrendingMovies_settled 1 None (Resolved Sample.firstPage)
                 Sample.fresh))) = 2
  ∧ currentPage
      (store (getTrendingMovies_settled 1 None (Resolved Sample.firstPage)
                (searchMovies_settled (js "alien") 1 None
                   (Resolved Sample.secondPage) Sample.fresh))) = 1.
Proof.
  destruct (responses_in_either_order 1 None (js "alien") 1 None
              (Resolved Sample.firstPage) (Resolved Sample.secondPage)
              Sample.fresh) as [_ C].
  destruct (C _ _ eq_refl eq_refl) as [(A & _) (B & _)].
  split; [exact A | exact B].
Defined.

Lemma loadMoreTrending_called_twice_witness :
  outbox (loadMoreTrending_called (loadMoreTrending_called Sample.browsing))
  = [trendingRequest 2 (Some Sample.drama);
     trendingRequest 2 (Some Sample.drama)]
  ∧ trendingMovies
      (store (getTrendingMovies_settled 2 (Some Sample.drama)
                (Resolved Sample.secondPage)
                (getTrendingMovies_settled 2 (Some Sample.drama)
                   (Resolved Sample.secondPage)
                   (loadMoreTrending_called
                      (loadMoreTrending_called Sample.browsing)))))
    = [Sample.alien; Sample.brazil; Sample.casablanca; Sample.alien;
       Sample.casablanca; Sample.alien].
Proof.
  apply (loadMoreTrending_called_twice Sample.browsing Sample.secondPage).
  simpl. lia.
Defined.

Lemma lookup_endpoints_distinct_witness :
  url (detailsRequest 348) = js "/movie/348"
  ∧ url (creditsRequest 348) = js "/movie/348/credits"
  ∧ url (videosRequest (-1)) = js "/movie/-1/videos"
  ∧ detailsRequest 348 ≠ detailsRequest 68.
Proof.
  destruct (lookup_endpoints_distinct 348 68) as (D & _).
  split_and!; [reflexivity..|]. intros E. by apply D in E.
Defined.

Lemma lookups_stay_out_of_the_store_witness :
  (getMovieDetails Sample.noDetails 348 Sample.searchDown).1 = None
  ∧ (getMovieVideos Sample.noVideos 348 Sample.searchDown).1 = []
  ∧ store (getMovieCredits Sample.noCredits 348 Sample.searchDown).2
    = store Sample.searchDown.
Proof.
  destruct (lookups_stay_out_of_the_store Sample.noDetails Sample.noCredits
              Sample.noVideos 348 Sample.searchDown)
    as (_ & (_ & S & _) & _ & D & _ & V).
  split_and!; [exact (D eq_refl) | apply V; by right | exact S].
Defined.

Lemma removeFromFavorites_drops_one_witness :
  Nat.add
    (length (favorites (store (removeFromFavorites 348 Sample.withFavorite))))
    1 = 1%nat
  ∧ Nat.add
      (length (favorites (store (removeFromFavorites 68 Sample.withFavorite))))
      0 = 1%nat.
Proof.
  assert (Hu : uniqueIds Sample.withFavorite) by apply NoDup_singleton.
  split.
  - exact (removeFromFavorites_drops_one 348 Sample.withFavorite Hu).
  - exact (removeFromFavorites_drops_one 68 Sample.withFavorite Hu).
Defined.
